(** * verify_ehc: decoding and verification of EU Digital Health Certificates

    A shallow embedding of [verify_ehc.py].  Python dictionaries that are
    only looked up are finite maps ([gmap]); dictionaries whose iteration
    order is observable are association lists.  Exceptions are values of
    [exception], and every function that can raise or print returns a [py]
    computation: the lines it wrote together with its outcome.  Calls into
    third-party packages (cbor2, cose, cryptography, base45, zlib, requests,
    json) are the fields of the class [Libraries]. *)

From Stdlib Require Import ZArith String Ascii.
From Stdlib.Strings Require Import Byte.
From stdpp Require Import gmap strings list fin_maps sorting.

Open Scope string_scope.
Open Scope Z_scope.
Open Scope list_scope.

(** ** Bytes *)

Abbreviation bytes := (list byte).

#[global] Instance byte_eq_dec : EqDecision byte.
Proof. intros a b. destruct (Byte.byte_eq_dec a b); [left|right]; assumption. Defined.

#[global] Instance byte_countable : Countable byte :=
  inj_countable Byte.to_N Byte.of_N Byte.of_to_N.

(** [b"..."] literals. *)
Definition b (s : string) : bytes := list_byte_of_string s.

(** [bs.startswith(b'x')] *)
Definition bytes_startswith (data : bytes) (p : byte) : bool :=
  match data with
  | c :: _ => bool_decide (c = p)
  | [] => false
  end.

(** [int.from_bytes(bs, byteorder="big", signed=False)] *)
Definition int_from_bytes (bs : bytes) : Z :=
  foldl (fun acc c => acc * 256 + Z.of_N (Byte.to_N c)) 0 bs.

(** The [length] low-order base-256 digits of [v], most significant first. *)
Fixpoint be_digits (length : nat) (v : Z) : bytes :=
  match length with
  | O => []
  | S n =>
      be_digits n (v / 256)
        ++ [default x00 (Byte.of_N (Z.to_N (v mod 256)))]
  end.

(** ** Exceptions *)

(** Dictionary keys that occur in the program: integers (claim codes, COSE
    labels) and text. *)
Inductive key :=
| KInt (z : Z)
| KStr (s : string).

#[global] Instance key_eq_dec : EqDecision key.
Proof. solve_decision. Defined.

(** What an exception was raised with. *)
Inductive message :=
| KeyIdMissmatch (key_id fingerprint8 : bytes)
    (* f'Key ID missmatch: {key_id.hex()} != {fingerprint[0:8].hex()}' *)
| InvalidSignatureTrustList (sign : bytes)
    (* f'Invalid signature DE trust list: {sign.hex()}' *)
| UnknownTrustListSource (source : string)
    (* f'Unknown trust list source: {source}' *)
| InvalidBase45String
    (* 'Invalid base45 string. Try with single quotes.' *)
| KeyIdNotFound (kid : bytes)
    (* f'Key ID not found in cert list: {given_kid.hex()}' *)
| UnsupportedCurve (name : string)
    (* f'Unsupported curve: {pk.curve.name}' *)
| UnsupportedPublicKeyType (name : string)
    (* f'Unsupported public key type: {type(pk).__name__}' *)
| MissingKey (k : key)
    (* a subscript d[k] on a dict without k *)
| NotEnoughValues
    (* unpacking a, b = [x] *)
| FromLibrary (what : string).
    (* raised inside a third-party call *)

(** The exception classes the program raises or catches. *)
Inductive exception :=
| ValueError (m : message)
| KeyError (m : message)
| TypeError
| IndexError
| AttributeError
| OverflowError
| InvalidSignature
| HTTPError (status : Z)
| OtherError (m : message).

Inductive outcome (A : Type) :=
| Return (a : A)
| Raise (e : exception).
Arguments Return {A} a.
Arguments Raise {A} e.

Set Warnings "-register-all".

(** ** Python values

    What [cbor2.loads] and [json.loads] return, as far as the program looks
    into it: None, integers, byte strings, text, lists and dictionaries.  A
    dictionary keeps its insertion order, which [items()] exposes.  Floats,
    booleans and tagged values are not embedded: what is proved of a value
    is proved of these six kinds. *)
Inductive value :=
| VNone
| VInt (z : Z)
| VBytes (bs : bytes)
| VStr (s : string)
| VList (l : list value)
| VDict (d : list (key * value)).

(** [bool(v)] *)
Definition truthy (v : value) : bool :=
  match v with
  | VNone => false
  | VInt z => negb (z =? 0)
  | VBytes bs => negb (bool_decide (bs = []))
  | VStr s => negb (bool_decide (s = ""))
  | VList l => match l with [] => false | _ => true end
  | VDict d => match d with [] => false | _ => true end
  end.

(** [d.get(k)] on the entries of a dict *)
Fixpoint dict_get (d : list (key * value)) (k : key) : option value :=
  match d with
  | [] => None
  | (k', v) :: d' => if decide (k' = k) then Some v else dict_get d' k
  end.

(** [l[i]] on a list, negative indices counting from the end *)
Definition list_index {A} (l : list A) (i : Z) : option A :=
  let n := Z.of_nat (length l) in
  if (0 <=? i) && (i <? n) then l !! Z.to_nat i
  else if (i <? 0) && (0 <=? n + i) then l !! Z.to_nat (n + i)
  else None.

(** [v[k]] *)
Definition subscript (v : value) (k : key) : outcome value :=
  match v, k with
  | VDict d, _ =>
      match dict_get d k with
      | Some x => Return x
      | None => Raise (KeyError (MissingKey k))
      end
  | VList l, KInt i =>
      match list_index l i with
      | Some x => Return x
      | None => Raise IndexError
      end
  | VBytes bs, KInt i =>
      match list_index bs i with
      | Some c => Return (VInt (Z.of_N (Byte.to_N c)))
      | None => Raise IndexError
      end
  | VStr s, KInt i =>
      match list_index (list_ascii_of_string s) i with
      | Some c => Return (VStr (String c EmptyString))
      | None => Raise IndexError
      end
  | _, _ => Raise TypeError
  end.

(** ** Certificates and keys (package cryptography) *)

(** [cert.public_key()]: an elliptic-curve key with its curve's [name] and
    [key_size] and its public numbers, an RSA key with its public numbers,
    or a key of some other class. *)
Inductive PublicKey :=
| EllipticCurvePublicKey (curve_name : string) (key_size : Z) (x y : Z)
| RSAPublicKey (e n : Z)
| OtherPublicKey (type_name : string).

(** [type(pk).__name__] *)
Definition type_name_of (pk : PublicKey) : string :=
  match pk with
  | EllipticCurvePublicKey _ _ _ _ => "EllipticCurvePublicKey"
  | RSAPublicKey _ _ => "RSAPublicKey"
  | OtherPublicKey name => name
  end.

(** [name.strip("_")] *)
Fixpoint lstrip_underscores (name : list ascii) : list ascii :=
  match name with
  | c :: rest => if bool_decide (c = "_"%char) then lstrip_underscores rest else name
  | [] => []
  end.

Definition strip_underscores (name : string) : string :=
  string_of_list_ascii
    (rev (lstrip_underscores (rev (lstrip_underscores (list_ascii_of_string name))))).

(** An [x509.Certificate].  [der] is its DER encoding, the bytes that
    [cert.fingerprint] hashes; the two validity bounds are naive datetimes,
    counted in seconds since 1970-01-01T00:00:00. *)
Record Certificate := {
  der : bytes;
  serial_number : Z;
  issuer : string;
  subject : string;
  version : Z;
  not_valid_before : Z;
  not_valid_after : Z;
  signature_algorithm_oid : string;
  public_key : PublicKey;
}.

(** ** COSE objects (package cose) *)

(** A curve class of [cose.keys.curves]. *)
Record CoseCurve := {
  identifier : Z;
  fullname : string;
}.

#[global] Instance CoseCurve_eq_dec : EqDecision CoseCurve.
Proof. solve_decision. Defined.

Inductive CoseAlgorithm := Es256 | Ps256.

(** The dictionaries handed to [CoseKey.from_dict]. *)
Inductive CoseKey :=
| KtyEC2 (curve : CoseCurve) (alg : CoseAlgorithm) (x y : bytes)
| KtyRSA (alg : CoseAlgorithm) (e n : bytes).

(** The label of the key-identifier header. *)
Definition KID : Z := 4.

Record CoseMessage := {
  phdr : gmap Z value;
  uhdr : gmap Z value;
  payload : bytes;
  signature : bytes;
}.

(** [requests.Response] *)
Record Response := {
  status_code : Z;
  content : bytes;
}.

(** ** Printed lines

    A [print] call is recorded with the values it formats, not with the
    formatted text. *)
Inductive shown :=
| ShownValue (v : value)       (* str(value) *)
| ShownDatetime (seconds : Z). (* dt.isoformat() *)

Inductive line :=
(* sys.stderr *)
| WarnUnknownCertificateType (cert_type country : value) (key_id : bytes)
| WarnPubkeyNotFound
| WarnPubkeyNotEllipticCurve (type_name : string)
(* verify_ehc *)
| LKeyID (kid : bytes)
| LKeyType (name : string)
| LCertSerial (n : Z)
| LCertIssuer (s : string)
| LCertSubject (s : string)
| LCertVersion (v : Z)
| LCertValidIn (not_before not_after : Z)
| LCertExpired (cert_expired : bool)
| LSignatureAlgo (oid : string)
| LCurve (name : string)
| LSignatureValid (valid : bool)
(* main *)
| LClaim (name : string) (v : shown)
| LClaimUnknown (k : key) (v : shown)
| LIsExpired (expired : bool)
| LPayloadHeader
| LPayload (json : string)
| LBlank.

(** ** Computations that print and may raise *)

Record py (A : Type) := Py {
  printed : list line;
  result : outcome A;
}.
Arguments Py {A} printed result.
Arguments printed {A} p.
Arguments result {A} p.

#[global] Instance py_ret : MRet py := fun A a => Py [] (Return a).

#[global] Instance py_bind : MBind py := fun A B f m =>
  match m with
  | Py out (Return a) => let rest := f a in Py (out ++ printed rest) (result rest)
  | Py out (Raise e) => Py out (Raise e)
  end.

Definition print (l : line) : py unit := Py [l] (Return tt).
Definition raise {A} (e : exception) : py A := Py [] (Raise e).
(** A call that does not print. *)
Definition call {A} (o : outcome A) : py A := Py [] o.
(** A lookup that raises [e] when it finds nothing. *)
Definition get_or_raise {A} (o : option A) (e : exception) : py A :=
  match o with
  | Some a => mret a
  | None => raise e
  end.

(** [for x in l: body(acc, x)], the loop state threaded through. *)
Fixpoint for_each {A S} (l : list A) (body : S → A → py S) (acc : S) : py S :=
  match l with
  | [] => mret acc
  | a :: l' => acc' ← body acc a; for_each l' body acc'
  end.

(** ** Third-party packages *)

Class Libraries := {
  (* cbor2.loads *)
  cbor2_loads : bytes → outcome value;
  (* json.loads, json.dumps(..., indent=4, sort_keys=True, default=json_serial) *)
  json_loads : bytes → outcome value;
  json_dumps : value → outcome string;
  (* base64.b64decode *)
  b64decode : bytes → outcome bytes;
  (* base45.b45decode *)
  b45decode : string → outcome bytes;
  (* zlib.decompress *)
  zlib_decompress : bytes → outcome bytes;
  (* x509.load_der_x509_certificate *)
  load_der_x509_certificate : bytes → outcome Certificate;
  (* hashes.SHA256 as used by cert.fingerprint *)
  SHA256 : bytes → bytes;
  (* load_pem_public_key *)
  load_pem_public_key : bytes → outcome PublicKey;
  (* encode_dss_signature(r, s) *)
  encode_dss_signature : Z → Z → bytes;
  (* pubkey.verify(signature, data, ECDSA(hashes.SHA256())) *)
  ecdsa_sha256_verify : PublicKey → bytes → bytes → outcome unit;
  (* requests.get(url) *)
  requests_get : string → outcome Response;
  (* CoseMessage.decode *)
  CoseMessage_decode : bytes → outcome CoseMessage;
  (* msg.verify_signature() once msg.key is set: the verdict of the
     cryptographic check, or what the package raises before it gets there
     (a message without an algorithm header, a key that does not suit the
     bound algorithm) *)
  verify_signature : CoseMessage → CoseKey → outcome bool;
  (* the classes imported from cose.keys.curves *)
  P256 : CoseCurve;
  P384 : CoseCurve;
  P521 : CoseCurve;
  (* dir(cose.keys.curves), in its sorted order: each attribute name that
     is bound to a proper subclass of CoseCurve, with that class *)
  cose_keys_curves : list (string * CoseCurve);
}.

(** ** Helpers shared by the loaders *)

(** The elements a [for] statement draws from a value. *)
Definition iterate (v : value) : outcome (list value) :=
  match v with
  | VList l => Return l
  | VDict d =>
      Return (map (fun kv => match fst kv with KInt z => VInt z | KStr s => VStr s end) d)
  | VBytes bs => Return (map (fun c => VInt (Z.of_N (Byte.to_N c))) bs)
  | VStr s => Return (map (fun c => VStr (String c EmptyString)) (list_ascii_of_string s))
  | _ => Raise TypeError
  end.

(** [data.split(b'\n', 1)]: the part before the first newline and the part
    after it, or nothing when there is no newline. *)
Fixpoint split_newline (data : bytes) : option (bytes * bytes) :=
  match data with
  | [] => None
  | c :: rest =>
      if bool_decide (c = x0a) then Some ([], rest)
      else '(before, after) ← split_newline rest; Some (c :: before, after)
  end.

(** [response.raise_for_status()] *)
Definition raise_for_status (response : Response) : py unit :=
  if (400 <=? status_code response) && (status_code response <? 600)
  then raise (HTTPError (status_code response))
  else mret tt.

Definition CERTS_URL_AT : string := "https://greencheck.gv.at/api/masterdata".
Definition CERTS_URL_DE : string := "https://de.dscg.ubirch.com/trustList/DSC/".
Definition PUBKEY_URL_DE : string :=
  "https://github.com/Digitaler-Impfnachweis/covpass-ios/raw/main/Certificates/PROD_RKI/CA/pubkey.pem".

Section Loaders.
Context `{Libraries}.

(** [cert.fingerprint(hashes.SHA256())] *)
Definition fingerprint (cert : Certificate) : bytes := SHA256 (der cert).

(** [x509.load_der_x509_certificate] applied to a value. *)
Definition load_der (data : value) : outcome Certificate :=
  match data with
  | VBytes bs => load_der_x509_certificate bs
  | _ => Raise TypeError
  end.

(** [b64decode] applied to a value: text is taken by its bytes. *)
Definition b64decode_value (v : value) : outcome bytes :=
  match v with
  | VBytes bs => b64decode bs
  | VStr s => b64decode (list_byte_of_string s)
  | _ => Raise TypeError
  end.

(** Lines 126-130 and 163-167: the fingerprint check guarding the
    insertion [certs[key_id] = cert]. *)
Definition check_and_insert (certs : gmap bytes Certificate)
    (key_id : bytes) (cert : Certificate) : py (gmap bytes Certificate) :=
  let fingerprint := fingerprint cert in
  if bool_decide (key_id ≠ take 8 fingerprint)
  then raise (ValueError (KeyIdMissmatch key_id (take 8 fingerprint)))
  else mret (<[key_id := cert]> certs).

(** The body of the loop of [load_ehc_certs_cbor]. *)
Definition load_ehc_certs_cbor_item (certs : gmap bytes Certificate)
    (item : value) : py (gmap bytes Certificate) :=
  key_id ← call (subscript item (KStr "i"));
  cert_data ← call (subscript item (KStr "c"));
  cert ← call (load_der cert_data);
  match key_id with
  | VBytes key_id => check_and_insert certs key_id cert
  | _ => raise AttributeError (* key_id.hex() in the message *)
  end.

Definition load_ehc_certs_cbor (cbor_data : bytes) : py (gmap bytes Certificate) :=
  certs_data ← call (cbor2_loads cbor_data);
  items ← call (subscript certs_data (KStr "c"));
  items ← call (iterate items);
  for_each items load_ehc_certs_cbor_item ∅.

(** The body of the loop of [load_ehc_certs_signed_json]. *)
Definition load_ehc_certs_signed_json_item (certs : gmap bytes Certificate)
    (cert : value) : py (gmap bytes Certificate) :=
  kid ← call (subscript cert (KStr "kid"));
  key_id ← call (b64decode_value kid);
  country ← call (subscript cert (KStr "country"));
  cert_type ← call (subscript cert (KStr "certificateType"));
  if negb (match cert_type with VStr s => bool_decide (s = "DSC") | _ => false end)
  then
    _ ← print (WarnUnknownCertificateType cert_type country key_id);
    mret certs (* continue *)
  else
    raw ← call (subscript cert (KStr "rawData"));
    raw_data ← call (b64decode_value raw);
    cert ← call (load_der_x509_certificate raw_data);
    check_and_insert certs key_id cert.

(** Lines 141-150: the check of the list's own signature. *)
Definition check_list_signature (pubkey : PublicKey) (sign body_json : bytes) : py unit :=
  let half := (length sign / 2)%nat in
  let r := int_from_bytes (take half sign) in
  let s := int_from_bytes (drop half sign) in
  let sign_dds := encode_dss_signature r s in
  match ecdsa_sha256_verify pubkey sign_dds body_json with
  | Return _ => mret tt
  | Raise InvalidSignature => raise (ValueError (InvalidSignatureTrustList sign))
  | Raise e => raise e
  end.

Definition load_ehc_certs_signed_json (data : bytes) (pubkey : option PublicKey)
    : py (gmap bytes Certificate) :=
  '(sign_b64, body_json) ← get_or_raise (split_newline data) (ValueError NotEnoughValues);
  sign ← call (b64decode sign_b64);
  body ← call (json_loads body_json);
  _ ← match pubkey with
      | Some pubkey => check_list_signature pubkey sign body_json
      | None => mret tt
      end;
  certificates ← call (subscript body (KStr "certificates"));
  certificates ← call (iterate certificates);
  for_each certificates load_ehc_certs_signed_json_item ∅.

(** One turn of the loop of [download_ehc_certs]. *)
Definition download_ehc_certs_source (certs : gmap bytes Certificate)
    (source : string) : py (gmap bytes Certificate) :=
  if bool_decide (source = "AT") then
    response ← call (requests_get CERTS_URL_AT);
    _ ← raise_for_status response;
    doc ← call (json_loads (content response));
    trust_list ← call (subscript doc (KStr "trustList"));
    trust_list_content ← call (subscript trust_list (KStr "trustListContent"));
    certs_cbor ← call (b64decode_value trust_list_content);
    certs_at ← load_ehc_certs_cbor certs_cbor;
    mret (certs_at ∪ certs) (* certs.update(certs_at) *)
  else if bool_decide (source = "DE") then
    response ← call (requests_get CERTS_URL_DE);
    _ ← raise_for_status response;
    let certs_signed_json := content response in
    response ← call (requests_get PUBKEY_URL_DE);
    pubkey ←
      (if status_code response =? 404 then
         _ ← print WarnPubkeyNotFound; mret None
       else
         _ ← raise_for_status response;
         res_pubkey ← call (load_pem_public_key (content response));
         match res_pubkey with
         | EllipticCurvePublicKey _ _ _ _ => mret (Some res_pubkey)
         | _ => _ ← print (WarnPubkeyNotEllipticCurve (type_name_of res_pubkey)); mret None
         end);
    certs_de ← load_ehc_certs_signed_json certs_signed_json pubkey;
    mret (certs_de ∪ certs) (* certs.update(certs_de) *)
  else
    raise (ValueError (UnknownTrustListSource source)).

Definition download_ehc_certs (sources : list string) : py (gmap bytes Certificate) :=
  for_each sources download_ehc_certs_source ∅.

End Loaders.

(** ** Text helpers *)

(** [CURVE_NAME_IGNORE.sub('', name)] with the pattern [[-_ ]] *)
Fixpoint strip_ignored (name : string) : string :=
  match name with
  | EmptyString => EmptyString
  | String c rest =>
      if bool_decide (c = "-"%char ∨ c = "_"%char ∨ c = " "%char)
      then strip_ignored rest
      else String c (strip_ignored rest)
  end.

(** [c.lower()] on an ASCII character *)
Definition lower_char (c : ascii) : ascii :=
  let n := nat_of_ascii c in
  if ((65 <=? n) && (n <=? 90))%nat then ascii_of_nat (n + 32) else c.

(** [name.lower()] on ASCII text *)
Fixpoint lower (name : string) : string :=
  match name with
  | EmptyString => EmptyString
  | String c rest => String (lower_char c) (lower rest)
  end.

(** [s[n:]] *)
Fixpoint string_drop (n : nat) (s : string) : string :=
  match n, s with
  | O, _ => s
  | S n', String _ rest => string_drop n' rest
  | S _, EmptyString => EmptyString
  end.

(** [v.bit_length()] *)
Definition bit_length (v : Z) : Z :=
  if v =? 0 then 0 else Z.log2 (Z.abs v) + 1.

(** [v.to_bytes(length, byteorder="big")] *)
Definition int_to_bytes (v length : Z) : outcome bytes :=
  if length <? 0 then Raise (ValueError (FromLibrary "length argument must be non-negative"))
  else if (0 <=? v) && (v <? 256 ^ length) then Return (be_digits (Z.to_nat length) v)
  else Raise OverflowError.

(** [datetime(1970, 1, 1) + timedelta(seconds=value)], as seconds since the
    epoch.  The sum must lie between [datetime.min] and [datetime.max]. *)
Definition epoch_datetime (v : value) : outcome Z :=
  match v with
  | VInt seconds =>
      if (-62135596800 <=? seconds) && (seconds <=? 253402300799)
      then Return seconds
      else Raise OverflowError
  | _ => Raise TypeError
  end.

Definition CLAIM_NAMES : gmap Z string :=
  {[ 1 := "Issuer"; 6 := "Issued At"; 4 := "Expires At"; -260 := "Health Claims" ]}.

Definition DATETIME_CLAIMS : gset Z := {[ 6; 4 ]}.

Section Verifier.
Context `{Libraries}.

(** Lines 50-63: the static table, then one more entry for every public
    attribute of [cose.keys.curves] that is a curve class other than the
    reserved one, under its normalised [fullname]. *)
Definition CURVES : gmap string CoseCurve :=
  foldl
    (fun curves '(name, curve) =>
       if negb (String.prefix "_" name) && negb (bool_decide (fullname curve = "RESERVED"))
       then <[lower (strip_ignored (fullname curve)) := curve]> curves
       else curves)
    ({[ "secp256r1" := P256; "prime256v1" := P256;
        "secp384r1" := P384; "secp521r1" := P521 ]} : gmap string CoseCurve)
    cose_keys_curves.

Definition decode_ehc (b45_data : string) : py CoseMessage :=
  let b45_data :=
    if String.prefix "HC1" b45_data then
      let b45_data := string_drop 3 b45_data in
      if String.prefix ":" b45_data then string_drop 1 b45_data else b45_data
    else b45_data in
  data ← match b45decode b45_data with
         | Return data => mret data
         | Raise (ValueError _) => raise (ValueError InvalidBase45String)
         | Raise e => raise e
         end;
  data ← (if bytes_startswith data "x"%byte
          then call (zlib_decompress data)
          else mret data);
  call (CoseMessage_decode data).

(** Line 224: [msg.phdr.get(KID) or msg.uhdr[KID]] *)
Definition given_kid_of (msg : CoseMessage) : py value :=
  let protected := default VNone (phdr msg !! KID) in
  if truthy protected then mret protected
  else get_or_raise (uhdr msg !! KID) (KeyError (MissingKey (KInt KID))).

(** Line 242 *)
Definition cert_expired_of (now : Z) (cert : Certificate) : bool :=
  (now <? not_valid_before cert) && (now >? not_valid_after cert).

(** Lines 249-295: the COSE key rebuilt from the certificate's key. *)
Definition cose_key_of (pk : PublicKey) : py CoseKey :=
  match pk with
  | EllipticCurvePublicKey name key_size x y =>
      _ ← print (LCurve name);
      let size := key_size / 8 in
      x ← call (int_to_bytes x size);
      y ← call (int_to_bytes y size);
      let curve_name := lower (strip_ignored name) in
      curve ← get_or_raise (CURVES !! curve_name) (KeyError (UnsupportedCurve name));
      mret (KtyEC2 curve Es256 x y)
  | RSAPublicKey e n =>
      e ← call (int_to_bytes e ((bit_length e + 7) / 8));
      n ← call (int_to_bytes n ((bit_length n + 7) / 8));
      mret (KtyRSA Ps256 e n)
  | OtherPublicKey _ =>
      raise (KeyError (UnsupportedPublicKeyType (type_name_of pk)))
  end.

(** [now] is the reading of [datetime.now()] at line 241. *)
Definition verify_ehc (now : Z) (msg : CoseMessage)
    (certs : gmap bytes Certificate) : py bool :=
  given_kid ← given_kid_of msg;
  given_kid ← match given_kid with
              | VBytes kid => mret kid
              | _ => raise AttributeError (* given_kid.hex() *)
              end;
  _ ← print (LKeyID given_kid);
  cert ← get_or_raise (certs !! given_kid) (KeyError (KeyIdNotFound given_kid));
  let pk := public_key cert in
  _ ← print (LKeyType (strip_underscores (type_name_of pk)));
  _ ← print (LCertSerial (serial_number cert));
  _ ← print (LCertIssuer (issuer cert));
  _ ← print (LCertSubject (subject cert));
  _ ← print (LCertVersion (version cert));
  _ ← print (LCertValidIn (not_valid_before cert) (not_valid_after cert));
  let cert_expired := cert_expired_of now cert in
  _ ← print (LCertExpired cert_expired);
  _ ← print (LSignatureAlgo (signature_algorithm_oid cert));
  key ← cose_key_of pk;
  valid ← call (verify_signature msg key);
  _ ← print (LSignatureValid valid);
  mret (valid && negb cert_expired).

(** Lines 367-376: one turn of the loop over [ehc_payload.items()]. *)
Definition print_claim (_ : unit) (item : key * value) : py unit :=
  let '(k, v) := item in
  if bool_decide (k ≠ KInt (-260)) then
    match k with
    | KInt z =>
        match CLAIM_NAMES !! z with
        | Some name =>
            if bool_decide (z ∈ DATETIME_CLAIMS) then
              dt ← call (epoch_datetime v);
              print (LClaim name (ShownDatetime dt))
            else print (LClaim name (ShownValue v))
        | None => print (LClaimUnknown k (ShownValue v))
        end
    | KStr _ => print (LClaimUnknown k (ShownValue v))
    end
  else mret tt.

(** [ehc_payload.items()] *)
Definition items (v : value) : outcome (list (key * value)) :=
  match v with
  | VDict d => Return d
  | _ => Raise AttributeError
  end.

(** [ehc_payload.get(4)] *)
Definition get (v : value) (k : key) : outcome value :=
  match v with
  | VDict d => Return (default VNone (dict_get d k))
  | _ => Raise AttributeError
  end.

(** Lines 367-381: the flat claims and the expiry of the claim set. *)
Definition print_claims (now : Z) (ehc_payload : value) : py unit :=
  claims ← call (items ehc_payload);
  _ ← for_each claims print_claim tt;
  expires_at_int ← call (get ehc_payload (KInt 4));
  match expires_at_int with
  | VNone => mret tt
  | _ =>
      expires_at ← call (epoch_datetime expires_at_int);
      print (LIsExpired (now >=? expires_at))
  end.

(** Lines 386-390: the health-claims document. *)
Definition print_health_claims (ehc_payload : value) : py unit :=
  health_claims ← call (subscript ehc_payload (KInt (-260)));
  ehc ← call (subscript health_claims (KInt 1));
  _ ← print LPayloadHeader;
  json ← call (json_dumps ehc);
  _ ← print (LPayload json);
  print LBlank.

(** Lines 364-390: the body of the loop of [main] over [ehc_codes].
    [certs] is [None] under [--no-verify]; [now] is the clock reading,
    taken to be the same at every [datetime.now()] of one turn. *)
Definition main_body (now : Z) (certs : option (gmap bytes Certificate))
    (_ : unit) (ehc_code : string) : py unit :=
  ehc_msg ← decode_ehc ehc_code;
  ehc_payload ← call (cbor2_loads (payload ehc_msg));
  _ ← print_claims now ehc_payload;
  _ ← match certs with
      | Some certs => _ ← verify_ehc now ehc_msg certs; mret tt
      | None => mret tt
      end;
  print_health_claims ehc_payload.

(** Lines 363-390 *)
Definition main_loop (now : Z) (certs : option (gmap bytes Certificate))
    (ehc_codes : list string) : py unit :=
  for_each ehc_codes (main_body now certs) tt.

End Verifier.

(** ** Base-45 *)

Definition BASE45_CHARSET : string :=
  "0123456789ABCDEFGHIJKLMNOPQRSTUVWXYZ $%*+-./:".

Fixpoint index_of (c : ascii) (l : list ascii) : option Z :=
  match l with
  | [] => None
  | c' :: l' => if bool_decide (c' = c) then Some 0 else Z.succ <$> index_of c l'
  end.

Definition b45_digit (c : ascii) : option Z :=
  index_of c (list_ascii_of_string BASE45_CHARSET).

Definition byte_of_Z (v : Z) : byte := default x00 (Byte.of_N (Z.to_N v)).

Fixpoint b45_bytes (digits : list Z) : option bytes :=
  match digits with
  | [] => Some []
  | [_] => None
  | [c; d] =>
      let v := c + 45 * d in
      if v <? 256 then Some [byte_of_Z v] else None
  | c :: d :: e :: rest =>
      let v := c + 45 * d + 2025 * e in
      if v <? 65536
      then tail ← b45_bytes rest; Some (byte_of_Z (v / 256) :: byte_of_Z (v mod 256) :: tail)
      else None
  end.

(** Modelled from the spec: [base45.b45decode], a package that is not part
    of the sources.  Three characters give two bytes, a final pair gives
    one byte, a final single character and a character outside the
    alphabet are refused, as is a group whose value does not fit. *)
Definition b45decode_spec (s : string) : outcome bytes :=
  match mapM b45_digit (list_ascii_of_string s) ≫= b45_bytes with
  | Some data => Return data
  | None => Raise (ValueError (FromLibrary "Invalid base45 string"))
  end.

(** ** A test double for the third-party packages

    The curve classes are those of [cose.keys.curves]; the codecs work on a
    toy wire format, enough to run the program on concrete inputs. *)

Definition cose_P256 : CoseCurve := {| identifier := 1; fullname := "P_256" |}.
Definition cose_P384 : CoseCurve := {| identifier := 2; fullname := "P_384" |}.
Definition cose_P521 : CoseCurve := {| identifier := 3; fullname := "P_521" |}.
Definition cose_SECP256K1 : CoseCurve := {| identifier := 8; fullname := "SECP256K1" |}.

Definition pycose_curves : list (string * CoseCurve) :=
  [ ("Ed25519", {| identifier := 6; fullname := "ED25519" |});
    ("Ed448", {| identifier := 7; fullname := "ED448" |});
    ("P256", cose_P256);
    ("P384", cose_P384);
    ("P521", cose_P521);
    ("Reserved", {| identifier := 0; fullname := "RESERVED" |});
    ("SECP256K1", cose_SECP256K1);
    ("X25519", {| identifier := 4; fullname := "X25519" |});
    ("X448", {| identifier := 5; fullname := "X448" |}) ].

(** A toy certificate encoding: the DER bytes are the key's curve name. *)
Definition toy_certificate (data : bytes) : Certificate :=
  {| der := data; serial_number := 1; issuer := "CN=Issuer"; subject := "CN=Subject";
     version := 2; not_valid_before := 100; not_valid_after := 200;
     signature_algorithm_oid := "1.2.840.10045.4.3.2";
     public_key := EllipticCurvePublicKey (string_of_list_byte data) 256 7 9 |}.

(** A toy digest: the input padded or cut to 32 bytes. *)
Definition toy_digest (data : bytes) : bytes := take 32 (data ++ replicate 32 x00).

(** A toy claim set: the payload bytes ["full"] hold an issuer, an expiry
    and a health-claims document, any others only an issuer. *)
Definition toy_claims (data : bytes) : value :=
  if bool_decide (data = b "full")
  then VDict [ (KInt 1, VStr "AT"); (KInt 4, VInt 1000);
               (KInt (-260), VDict [ (KInt 1, VDict [ (KStr "ver", VStr "1.0.0") ]) ]) ]
  else VDict [ (KInt 1, VStr "AT") ].

(** A toy trust list: one item per line of the document, the line being
    the certificate and its first eight bytes the declared key id, except
    that a line starting with ["!"] declares the key id ["!"]. *)
Definition toy_item (entry : bytes) : value :=
  VDict [ (KStr "i", VBytes (if bytes_startswith entry "!"%byte then b "!" else take 8 entry));
          (KStr "c", VBytes entry);
          (KStr "kid", VBytes (if bytes_startswith entry "!"%byte then b "!" else take 8 entry));
          (KStr "country", VStr "AT");
          (KStr "certificateType", VStr (if bytes_startswith entry "#"%byte then "CSCA" else "DSC"));
          (KStr "rawData", VBytes entry) ].

Fixpoint toy_lines (data : bytes) (current : bytes) : list bytes :=
  match data with
  | [] => match current with [] => [] | _ => [current] end
  | c :: rest =>
      if bool_decide (c = x0a) then current :: toy_lines rest []
      else toy_lines rest (current ++ [c])
  end.

Definition toy_trust_list (data : bytes) : value :=
  VDict [ (KStr "c", VList (toy_item <$> toy_lines data []));
          (KStr "certificates", VList (toy_item <$> toy_lines data []));
          (KStr "trustList", VDict [ (KStr "trustListContent", VBytes data) ]) ].

(** A toy signed message: eight bytes of protected key id, then the
    payload. *)
Definition toy_message (data : bytes) : CoseMessage :=
  {| phdr := {[ KID := VBytes (take 8 data) ]}; uhdr := ∅;
     payload := drop 8 data; signature := [] |}.

#[local] Instance toy_libraries : Libraries := {|
  cbor2_loads data :=
    Return (if bool_decide (length data = 4%nat) then toy_claims data else toy_trust_list data);
  json_loads data := Return (toy_trust_list data);
  json_dumps v := Return "{}";
  b64decode data := Return data;
  b45decode := b45decode_spec;
  zlib_decompress data :=
    match data with
    | _ :: rest => Return rest
    | [] => Raise (OtherError (FromLibrary "zlib.error"))
    end;
  load_der_x509_certificate data := Return (toy_certificate data);
  SHA256 := toy_digest;
  load_pem_public_key data := Return (EllipticCurvePublicKey "secp256r1" 256 7 9);
  encode_dss_signature r s := be_digits 32 r ++ be_digits 32 s;
  (* a toy signature scheme: the signatures with r = s are the valid ones *)
  ecdsa_sha256_verify pk sig data :=
    if bool_decide (take 32 sig = drop 32 sig) then Return tt else Raise InvalidSignature;
  requests_get url :=
    Return {| status_code := 200;
              content := if bool_decide (url = CERTS_URL_AT) then b "secp256r1-at"
                         else b "abab
secp256r1
secp384r1" |};
  CoseMessage_decode data := Return (toy_message data);
  (* a toy check: the empty signature is the valid one; as in the cose
     package, an elliptic-curve key bound to Es256 must lie on P-256 *)
  verify_signature msg key :=
    match key with
    | KtyEC2 curve _ _ _ =>
        if bool_decide (curve = cose_P256)
        then Return (bool_decide (signature msg = []))
        else Raise (OtherError (FromLibrary "AssertionError"))
    | KtyRSA _ _ _ => Return (bool_decide (signature msg = []))
    end;
  P256 := cose_P256;
  P384 := cose_P384;
  P521 := cose_P521;
  cose_keys_curves := pycose_curves;
|}.

(** Fixtures: a store of two certificates, one on a NIST curve and one on
    the Koblitz curve, and messages signed under them. *)
Definition ed25519_certificate : Certificate :=
  {| der := b "ed25519"; serial_number := 2; issuer := "CN=Issuer"; subject := "CN=Subject";
     version := 2; not_valid_before := 100; not_valid_after := 200;
     signature_algorithm_oid := "1.3.101.112";
     public_key := OtherPublicKey "Ed25519PublicKey" |}.

Definition toy_store : gmap bytes Certificate :=
  {[ b "secp256r" := toy_certificate (b "secp256r1");
     b "secp256k" := toy_certificate (b "secp256k1");
     b "brainpoo" := toy_certificate (b "brainpoolP256r1");
     b "ed25519." := ed25519_certificate ]}.

Definition toy_key : CoseKey :=
  KtyEC2 cose_P256 Es256 (be_digits 32 7) (be_digits 32 9).

Definition msg_nist : CoseMessage := toy_message (b "secp256rfull").
Definition msg_koblitz : CoseMessage := toy_message (b "secp256kfull").
Definition msg_brainpool : CoseMessage := toy_message (b "brainpoofull").
Definition msg_ed25519 : CoseMessage := toy_message (b "ed25519.full").

(** What the toy trust-list services hold. *)
Definition toy_store_de : gmap bytes Certificate :=
  {[ b "secp256r" := toy_certificate (b "secp256r1");
     b "secp384r" := toy_certificate (b "secp384r1") ]}.

Definition toy_store_at : gmap bytes Certificate :=
  {[ b "secp256r" := toy_certificate (b "secp256r1-at") ]}.

Definition toy_store_merged : gmap bytes Certificate :=
  {[ b "secp256r" := toy_certificate (b "secp256r1-at");
     b "secp384r" := toy_certificate (b "secp384r1") ]}.

(** No key id in either header. *)
Definition msg_bare : CoseMessage :=
  {| phdr := ∅; uhdr := ∅; payload := b "full"; signature := [] |}.

(** An empty protected key id next to an unprotected one. *)
Definition msg_empty_protected : CoseMessage :=
  {| phdr := {[ KID := VBytes [] ]};
     uhdr := {[ KID := VBytes (b "secp256r") ]};
     payload := b "full"; signature := [] |}.

(** The names the scan of [cose.keys.curves] at lines 58-63 adds to the
    table: the normalised [fullname] of every public curve class of the
    listing other than the reserved one. *)
Definition scanned (listing : list (string * CoseCurve)) (n : string) : Prop :=
  ∃ name curve, (name, curve) ∈ listing
    ∧ String.prefix "_" name = false
    ∧ fullname curve ≠ "RESERVED"
    ∧ lower (strip_ignored (fullname curve)) = n.

(** The envelope prefix in the words of the specification: a leading
    [HC1], with the colon that may follow it, is stripped; any other text
    is left as it is. *)
Inductive hc1_stripped : string → string → Prop :=
| stripped_colon rest :
    hc1_stripped (String.append "HC1:" rest) rest
| stripped_plain rest :
    String.prefix ":" rest = false →
    hc1_stripped (String.append "HC1" rest) rest
| stripped_none text :
    String.prefix "HC1" text = false →
    hc1_stripped text text.

Section LoaderPredicates.
Context `{Libraries}.

(** The invariant of a Trust Store: every entry is filed under the first
    eight bytes of the SHA-256 fingerprint of its certificate. *)
Definition key_ids_match (certs : gmap bytes Certificate) : Prop :=
  ∀ key_id cert, certs !! key_id = Some cert →
    key_id = take 8 (SHA256 (der cert)).

(** An element [{i: key_id, c: DER bytes}] of the binary list whose
    certificate parses. *)
Definition cbor_item_parses (item : value) (key_id : bytes) (cert : Certificate) : Prop :=
  subscript item (KStr "i") = Return (VBytes key_id)
  ∧ ∃ cert_data, subscript item (KStr "c") = Return cert_data
      ∧ load_der cert_data = Return cert.

(** An entry of the signed-JSON list that names another certificate type
    than DSC, and under which type, country and key id. *)
Definition json_entry_skipped (entry : value) (cert_type country : value)
    (key_id : bytes) : Prop :=
  (∃ kid, subscript entry (KStr "kid") = Return kid
      ∧ b64decode_value kid = Return key_id)
  ∧ subscript entry (KStr "country") = Return country
  ∧ subscript entry (KStr "certificateType") = Return cert_type
  ∧ cert_type ≠ VStr "DSC".

(** A DSC entry of the signed-JSON list whose certificate parses. *)
Definition json_entry_parses (entry : value) (key_id : bytes) (cert : Certificate) : Prop :=
  (∃ kid, subscript entry (KStr "kid") = Return kid
      ∧ b64decode_value kid = Return key_id)
  ∧ (∃ country, subscript entry (KStr "country") = Return country)
  ∧ subscript entry (KStr "certificateType") = Return (VStr "DSC")
  ∧ ∃ raw raw_data, subscript entry (KStr "rawData") = Return raw
      ∧ b64decode_value raw = Return raw_data
      ∧ load_der_x509_certificate raw_data = Return cert.

(** The signed-JSON document read up to its [certificates] array: the
    two lines split, the signature decoded, the body parsed. *)
Definition json_list_reads (data sign body_json : bytes) (entries : list value) : Prop :=
  ∃ sign_b64 body certificates,
    split_newline data = Some (sign_b64, body_json)
    ∧ b64decode sign_b64 = Return sign
    ∧ json_loads body_json = Return body
    ∧ subscript body (KStr "certificates") = Return certificates
    ∧ iterate certificates = Return entries.

(** The binary document read up to its list [c]. *)
Definition cbor_list_reads (cbor_data : bytes) (items : list value) : Prop :=
  ∃ certs_data c, cbor2_loads cbor_data = Return certs_data
    ∧ subscript certs_data (KStr "c") = Return c
    ∧ iterate c = Return items.

(** The list's own signature passes, or no key was supplied to check it. *)
Definition list_signature_accepted (pubkey : option PublicKey)
    (sign body_json : bytes) : Prop :=
  match pubkey with
  | None => True
  | Some pubkey =>
      let half := (length sign / 2)%nat in
      ∃ u, ecdsa_sha256_verify pubkey
             (encode_dss_signature (int_from_bytes (take half sign))
                                   (int_from_bytes (drop half sign)))
             body_json = Return u
  end.

End LoaderPredicates.

(** The lines of lines 388-390, by which the health-claims document is
    output. *)
Definition is_payload_line (l : line) : bool :=
  match l with
  | LPayloadHeader | LPayload _ | LBlank => true
  | _ => false
  end.

(** A computation none of whose lines belongs to the health-claims
    output. *)
Definition no_payload_line {A} (m : py A) : Prop :=
  Forall (λ l, is_payload_line l = false) (printed m).

(** A payload without the health-claims entry, or whose health-claims
    entry is a map without the sub-key 1. *)
Definition lacks_health_claims (claims : list (key * value)) : Prop :=
  dict_get claims (KInt (-260)) = None
  ∨ ∃ health_claims, dict_get claims (KInt (-260)) = Some (VDict health_claims)
      ∧ dict_get health_claims (KInt 1) = None.

(** The lines 225-247 of [verify_ehc]: the key id and the metadata of the
    certificate it resolves to. *)
Definition certificate_lines (now : Z) (kid : bytes) (cert : Certificate) : list line :=
  [ LKeyID kid;
    LKeyType (strip_underscores (type_name_of (public_key cert)));
    LCertSerial (serial_number cert);
    LCertIssuer (issuer cert);
    LCertSubject (subject cert);
    LCertVersion (version cert);
    LCertValidIn (not_valid_before cert) (not_valid_after cert);
    LCertExpired ((now <? not_valid_before cert) && (now >? not_valid_after cert));
    LSignatureAlgo (signature_algorithm_oid cert) ].

(** A certificate on the 521-bit curve whose first coordinate has its top
    bit set, a store holding it, and a message signed under it. *)
Definition p521_certificate : Certificate :=
  {| der := b "secp521r1"; serial_number := 3; issuer := "CN=Issuer"; subject := "CN=Subject";
     version := 2; not_valid_before := 100; not_valid_after := 200;
     signature_algorithm_oid := "1.2.840.10045.4.3.4";
     public_key := EllipticCurvePublicKey "secp521r1" 521 (2 ^ 520) 1 |}.

Definition p521_store : gmap bytes Certificate := {[ b "secp521r" := p521_certificate ]}.

Definition msg_p521 : CoseMessage := toy_message (b "secp521rfull").

(** The packages with another verifier for the signature of the list. *)
Definition with_ecdsa_verify (L : Libraries)
    (verify : PublicKey → bytes → bytes → outcome unit) : Libraries :=
  {| cbor2_loads := @cbor2_loads L;
     json_loads := @json_loads L;
     json_dumps := @json_dumps L;
     b64decode := @b64decode L;
     b45decode := @b45decode L;
     zlib_decompress := @zlib_decompress L;
     load_der_x509_certificate := @load_der_x509_certificate L;
     SHA256 := @SHA256 L;
     load_pem_public_key := @load_pem_public_key L;
     encode_dss_signature := @encode_dss_signature L;
     ecdsa_sha256_verify := verify;
     requests_get := @requests_get L;
     CoseMessage_decode := @CoseMessage_decode L;
     verify_signature := @verify_signature L;
     P256 := @P256 L;
     P384 := @P384 L;
     P521 := @P521 L;
     cose_keys_curves := @cose_keys_curves L |}.

Section ListsRead.
Context `{Libraries}.

(** The elements of a binary list read one by one: each parses and
    declares the key id of its certificate. *)
Definition cbor_items_read (items : list value)
    (admitted : list (bytes * Certificate)) : Prop :=
  Forall2 (λ item entry, cbor_item_parses item entry.1 entry.2
                         ∧ entry.1 = take 8 (SHA256 (der entry.2)))
          items admitted.

(** The entries of a signed-JSON list read one by one: the warnings for
    the entries of another type than DSC, and the DSC entries, each of
    which parses and declares the key id of its certificate. *)
Inductive json_entries_read :
    list value → list line → list (bytes * Certificate) → Prop :=
| json_entries_read_nil :
    json_entries_read [] [] []
| json_entries_read_skip entry entries cert_type country key_id warnings admitted :
    json_entry_skipped entry cert_type country key_id →
    json_entries_read entries warnings admitted →
    json_entries_read (entry :: entries)
      (WarnUnknownCertificateType cert_type country key_id :: warnings) admitted
| json_entries_read_admit entry entries key_id cert warnings admitted :
    json_entry_parses entry key_id cert →
    key_id = take 8 (SHA256 (der cert)) →
    json_entries_read entries warnings admitted →
    json_entries_read (entry :: entries) warnings ((key_id, cert) :: admitted).

End ListsRead.

(** The test double with a key service that answers 404. *)
Definition toy_libraries_no_key : Libraries :=
  {| cbor2_loads := @cbor2_loads toy_libraries;
     json_loads := @json_loads toy_libraries;
     json_dumps := @json_dumps toy_libraries;
     b64decode := @b64decode toy_libraries;
     b45decode := @b45decode toy_libraries;
     zlib_decompress := @zlib_decompress toy_libraries;
     load_der_x509_certificate := @load_der_x509_certificate toy_libraries;
     SHA256 := @SHA256 toy_libraries;
     load_pem_public_key := @load_pem_public_key toy_libraries;
     encode_dss_signature := @encode_dss_signature toy_libraries;
     ecdsa_sha256_verify := @ecdsa_sha256_verify toy_libraries;
     requests_get url :=
       if bool_decide (url = PUBKEY_URL_DE)
       then Return {| status_code := 404; content := [] |}
       else Return {| status_code := 200; content := b "abcd
secp256r1" |};
     CoseMessage_decode := @CoseMessage_decode toy_libraries;
     verify_signature := @verify_signature toy_libraries;
     P256 := @P256 toy_libraries;
     P384 := @P384 toy_libraries;
     P521 := @P521 toy_libraries;
     cose_keys_curves := @cose_keys_curves toy_libraries |}.

(** ** The start of [main]: the trust store and the listing *)

(** The [Namespace] that [ap.parse_args()] returns. *)
Record Args := {
  certs_file : option string;
  certs_from : string;
  no_verify : bool;
  list_certs : bool;
  image : bool;
  ehc_code : list string;
}.

(** [s.split(',')] *)
Fixpoint split_comma (s : string) : list string :=
  match s with
  | EmptyString => [EmptyString]
  | String c rest =>
      if bool_decide (c = ","%char) then EmptyString :: split_comma rest
      else match split_comma rest with
           | first :: others => String c first :: others
           | [] => [String c EmptyString]
           end
  end.

(** [c.isspace()] on an ASCII character; text beyond ASCII is not
    embedded *)
Definition is_space (c : ascii) : bool :=
  let n := nat_of_ascii c in
  ((9 <=? n) && (n <=? 13) || (28 <=? n) && (n <=? 32))%nat.

(** [s.lstrip()] *)
Fixpoint lstrip (s : list ascii) : list ascii :=
  match s with
  | c :: rest => if is_space c then lstrip rest else s
  | [] => []
  end.

(** [s.strip()] on ASCII text *)
Definition strip (s : string) : string :=
  string_of_list_ascii (rev (lstrip (rev (lstrip (list_ascii_of_string s))))).

(** [c.upper()] on an ASCII character *)
Definition upper_char (c : ascii) : ascii :=
  let n := nat_of_ascii c in
  if ((97 <=? n) && (n <=? 122))%nat then ascii_of_nat (n - 32) else c.

(** [s.upper()] on ASCII text *)
Fixpoint upper (s : string) : string :=
  match s with
  | EmptyString => EmptyString
  | String c rest => String (upper_char c) (upper rest)
  end.

(** Line 324: [[country.strip().upper() for country in certs_from.split(',')]] *)
Definition sources_of (certs_from : string) : list string :=
  (λ country, upper (strip country)) <$> split_comma certs_from.

(** [','.join(names)] *)
Fixpoint join_comma (names : list string) : string :=
  match names with
  | [] => EmptyString
  | [name] => name
  | name :: rest => String.append name (String "," (join_comma rest))
  end.

(** The order of two byte strings, and of two texts, as [<] and [==]
    decide it: position by position, a proper prefix first. *)
Fixpoint bytes_compare (a c : bytes) : comparison :=
  match a, c with
  | [], [] => Eq
  | [], _ :: _ => Lt
  | _ :: _, [] => Gt
  | x :: a', y :: c' =>
      match N.compare (Byte.to_N x) (Byte.to_N y) with
      | Eq => bytes_compare a' c'
      | o => o
      end
  end.

(** Line 328: the sort key [(issuer, subject, key_id)] of an item and the
    order of two keys. *)
Definition listing_compare (i j : bytes * Certificate) : comparison :=
  match String.compare (issuer i.2) (issuer j.2) with
  | Eq =>
      match String.compare (subject i.2) (subject j.2) with
      | Eq => bytes_compare i.1 j.1
      | o => o
      end
  | o => o
  end.

Definition listing_le (i j : bytes * Certificate) : Prop :=
  listing_compare i j ≠ Gt.

(** [items.sort(key=...)]: a stable sort, here by insertion. *)
Fixpoint listing_insert (item : bytes * Certificate)
    (sorted : list (bytes * Certificate)) : list (bytes * Certificate) :=
  match sorted with
  | [] => [item]
  | first :: rest =>
      match listing_compare item first with
      | Lt => item :: sorted
      | _ => first :: listing_insert item rest
      end
  end.

Definition listing_sort (items : list (bytes * Certificate)) : list (bytes * Certificate) :=
  foldl (λ sorted item, listing_insert item sorted) [] items.

(** Lines 327-330: the items of the store in the order in which
    [--list-certs] prints them, one paragraph each. *)
Definition listing (certs : gmap bytes Certificate) : list (bytes * Certificate) :=
  listing_sort (map_to_list certs).

Section MainSetup.
Context `{Libraries}.
(** [open(filename, 'rb').read()] *)
Variable read_file : string → outcome bytes.

Definition load_ehc_certs (filename : string) : py (gmap bytes Certificate) :=
  certs_cbor ← call (read_file filename);
  load_ehc_certs_cbor certs_cbor.

(** Lines 319-324: the trust store of the run, [None] under
    [--no-verify]. *)
Definition main_certs (args : Args) : py (option (gmap bytes Certificate)) :=
  if negb (no_verify args) then
    certs ← (if match certs_file args with
                | Some filename => negb (bool_decide (filename = ""))
                | None => false
                end
             then load_ehc_certs (default "" (certs_file args))
             else download_ehc_certs (sources_of (certs_from args)));
    mret (Some certs)
  else mret None.

End MainSetup.

(** The test double with a signature check that always fails. *)
Definition toy_libraries_forged : Libraries :=
  {| cbor2_loads := @cbor2_loads toy_libraries;
     json_loads := @json_loads toy_libraries;
     json_dumps := @json_dumps toy_libraries;
     b64decode := @b64decode toy_libraries;
     b45decode := @b45decode toy_libraries;
     zlib_decompress := @zlib_decompress toy_libraries;
     load_der_x509_certificate := @load_der_x509_certificate toy_libraries;
     SHA256 := @SHA256 toy_libraries;
     load_pem_public_key := @load_pem_public_key toy_libraries;
     encode_dss_signature := @encode_dss_signature toy_libraries;
     ecdsa_sha256_verify := @ecdsa_sha256_verify toy_libraries;
     requests_get := @requests_get toy_libraries;
     CoseMessage_decode := @CoseMessage_decode toy_libraries;
     verify_signature msg key := Return false;
     P256 := @P256 toy_libraries;
     P384 := @P384 toy_libraries;
     P521 := @P521 toy_libraries;
     cose_keys_curves := @cose_keys_curves toy_libraries |}.

(** The expiry test in the words of the specification:
    [now < not_before OR now > not_after]. *)
Definition window_expired (now : Z) (cert : Certificate) : bool :=
  (now <? not_valid_before cert) || (now >? not_valid_after cert).

(** * Properties *)

(** ** The [py] monad *)

Lemma result_bind {A B} (m : py A) (f : A → py B) :
  result (m ≫= f) =
    match result m with
    | Return a => result (f a)
    | Raise e => Raise e
    end.
Proof. unfold mbind, py_bind. destruct m as [out [a|e]]; reflexivity. Qed.

Lemma printed_bind {A B} (m : py A) (f : A → py B) :
  printed (m ≫= f) =
    match result m with
    | Return a => printed m ++ printed (f a)
    | Raise _ => printed m
    end.
Proof. unfold mbind, py_bind. destruct m as [out [a|e]]; reflexivity. Qed.

Lemma bind_raise {A B} (m : py A) (f : A → py B) e :
  result m = Raise e → m ≫= f = Py (printed m) (Raise e).
Proof.
  unfold mbind, py_bind. destruct m as [out [a|e']]; cbn [result printed];
    intros [=]. subst. reflexivity.
Qed.

Lemma bind_return {A B} (m : py A) (f : A → py B) a :
  result m = Return a → m ≫= f = Py (printed m ++ printed (f a)) (result (f a)).
Proof.
  unfold mbind, py_bind. destruct m as [out [a'|e]]; cbn [result printed];
    intros [=]. subst. reflexivity.
Qed.

Lemma result_bind_inv {A B} (m : py A) (f : A → py B) v :
  result (m ≫= f) = Return v →
  ∃ a, result m = Return a ∧ result (f a) = Return v.
Proof.
  rewrite result_bind. destruct (result m) as [a|e]; [|discriminate].
  intros Hf. exists a. split; [reflexivity|exact Hf].
Qed.

Lemma py_eta {A} (m : py A) : m = Py (printed m) (result m).
Proof. destruct m; reflexivity. Qed.

Lemma call_return_bind {A B} (a : A) (f : A → py B) : call (Return a) ≫= f = f a.
Proof. unfold mbind, py_bind. simpl. destruct (f a); reflexivity. Qed.

Lemma mret_bind {A B} (a : A) (f : A → py B) : mret a ≫= f = f a.
Proof. exact (call_return_bind a f). Qed.

(** Stepping through a chain of binds, one known outcome at a time. *)
Ltac py_step :=
  repeat progress
    (rewrite ?result_bind, ?printed_bind;
     cbn [result printed print raise call mret py_ret get_or_raise]).

(** ** The validity window *)

(** C1 (defect of line 242): the flag conjoins the two comparisons, so no
    certificate whose window is not inverted is ever reported expired,
    whatever the clock says; one whose [not_after] lies in the past is
    reported not expired. *)
Theorem cert_expired_of_false (now : Z) (cert : Certificate) :
  not_valid_before cert <= not_valid_after cert →
  cert_expired_of now cert = false.
Proof.
  intros Hwindow. unfold cert_expired_of.
  destruct (Z.ltb_spec now (not_valid_before cert)) as [Hlt|Hge]; [|reflexivity].
  destruct (Z.gtb_spec now (not_valid_after cert)) as [Hgt|Hle]; [lia|reflexivity].
Qed.

Lemma cert_expired_of_false_witness :
  not_valid_after (toy_certificate []) < 300 ∧
  cert_expired_of 300 (toy_certificate []) = false.
Proof.
  split; [reflexivity|].
  apply (cert_expired_of_false 300 (toy_certificate [])). discriminate.
Defined.

(** ** The effective key id *)

Section VerifierFacts.
Context `{Libraries}.

Lemma given_kid_of_protected (msg : CoseMessage) (v : value) :
  phdr msg !! KID = Some v → truthy v = true →
  given_kid_of msg = mret v.
Proof. intros Hp Ht. unfold given_kid_of. rewrite Hp. simpl. rewrite Ht. reflexivity. Qed.

Lemma given_kid_of_fallback (msg : CoseMessage) :
  truthy (default VNone (phdr msg !! KID)) = false →
  given_kid_of msg =
    get_or_raise (uhdr msg !! KID) (KeyError (MissingKey (KInt KID))).
Proof. intros Ht. unfold given_kid_of. rewrite Ht. reflexivity. Qed.

(** The run of [verify_ehc] once the key id resolves to a certificate. *)
Lemma verify_ehc_resolved (now : Z) (msg : CoseMessage)
    (certs : gmap bytes Certificate) (kid : bytes) (cert : Certificate) :
  result (given_kid_of msg) = Return (VBytes kid) →
  certs !! kid = Some cert →
  result (verify_ehc now msg certs) =
    match result (cose_key_of (public_key cert)) with
    | Return key =>
        match verify_signature msg key with
        | Return valid => Return (valid && negb (cert_expired_of now cert))
        | Raise e => Raise e
        end
    | Raise e => Raise e
    end.
Proof.
  intros Hkid Hcert. unfold verify_ehc.
  py_step. rewrite Hkid. py_step. rewrite Hcert. py_step.
  destruct (result (cose_key_of (public_key cert))) as [key|e]; [|reflexivity].
  py_step. destruct (verify_signature msg key); reflexivity.
Qed.

(** The key id is looked up before anything else can go wrong. *)
Lemma verify_ehc_given_kid_raises (now : Z) (msg : CoseMessage)
    (certs : gmap bytes Certificate) (e : exception) :
  result (given_kid_of msg) = Raise e →
  verify_ehc now msg certs = Py [] (Raise e).
Proof.
  intros Hkid. unfold verify_ehc. rewrite (bind_raise _ _ e Hkid).
  f_equal. unfold given_kid_of.
  destruct (truthy _); [reflexivity|]. destruct (uhdr msg !! KID); reflexivity.
Qed.

End VerifierFacts.

(** C4 (defect of line 242, as for C1): the result is the verdict of the
    signature check conjoined with the negation of the flag of line 242,
    and that flag is false on every window that is not inverted; so for a
    certificate whose [not_after] lies in the past and a signature the
    check accepts, [verify_ehc] returns [True], where the verdict conjoined
    with "not expired" by the test [now < not_before OR now > not_after] is
    [False]. *)
Theorem expired_certificate_verifies `{Libraries} (now : Z) (msg : CoseMessage)
    (certs : gmap bytes Certificate) (kid : bytes) (cert : Certificate) (key : CoseKey) :
  result (given_kid_of msg) = Return (VBytes kid) →
  certs !! kid = Some cert →
  result (cose_key_of (public_key cert)) = Return key →
  verify_signature msg key = Return true →
  not_valid_before cert <= not_valid_after cert →
  not_valid_after cert < now →
  result (verify_ehc now msg certs) = Return true
  ∧ window_expired now cert = true
  ∧ true && negb (window_expired now cert) = false.
Proof.
  intros Hkid Hcert Hkey Hvalid Hwindow Hpast.
  assert (Hspec : window_expired now cert = true).
  { unfold window_expired. apply orb_true_iff. right. apply Z.gtb_lt. exact Hpast. }
  split; [|split; [exact Hspec|rewrite Hspec; reflexivity]].
  rewrite (verify_ehc_resolved now msg certs kid cert Hkid Hcert), Hkey, Hvalid.
  unfold cert_expired_of.
  destruct (Z.ltb_spec now (not_valid_before cert)); [lia|reflexivity].
Qed.

Lemma expired_certificate_verifies_witness :
  result (verify_ehc 300 msg_nist toy_store) = Return true
  ∧ window_expired 300 (toy_certificate (b "secp256r1")) = true
  ∧ true && negb (window_expired 300 (toy_certificate (b "secp256r1"))) = false.
Proof.
  refine (expired_certificate_verifies 300 msg_nist toy_store (b "secp256r")
            (toy_certificate (b "secp256r1")) toy_key eq_refl eq_refl eq_refl eq_refl _ _).
  - discriminate.
  - reflexivity.
Defined.

(** C6, as stated, fails: a protected key id that is present but empty is
    passed over, and the message is verified under the unprotected one. *)
Lemma given_kid_of_empty_protected :
  phdr msg_empty_protected !! KID = Some (VBytes [])
  ∧ given_kid_of msg_empty_protected = mret (VBytes (b "secp256r"))
  ∧ given_kid_of msg_empty_protected ≠ mret (VBytes [])
  ∧ head (printed (verify_ehc 150 msg_empty_protected toy_store))
    = Some (LKeyID (b "secp256r"))
  ∧ result (verify_ehc 150 msg_empty_protected toy_store) = Return true.
Proof.
  split; [reflexivity|]. split; [reflexivity|]. split; [discriminate|].
  split; reflexivity.
Qed.

(** C6, amended: the protected key id is used when it is present and not
    empty (truthy); otherwise the unprotected one is; and when the
    protected one is absent or empty and the unprotected one is absent,
    [verify_ehc] raises the [KeyError] of the missing header before
    printing anything. *)
Theorem given_kid_of_spec `{Libraries} (msg : CoseMessage) :
  (∀ v, phdr msg !! KID = Some v → truthy v = true → given_kid_of msg = mret v)
  ∧ (∀ v, truthy (default VNone (phdr msg !! KID)) = false →
          uhdr msg !! KID = Some v → given_kid_of msg = mret v)
  ∧ (∀ now certs, truthy (default VNone (phdr msg !! KID)) = false →
          uhdr msg !! KID = None →
          verify_ehc now msg certs = Py [] (Raise (KeyError (MissingKey (KInt KID)))))
  ∧ (∀ now certs, phdr msg !! KID = None → uhdr msg !! KID = None →
          verify_ehc now msg certs = Py [] (Raise (KeyError (MissingKey (KInt KID))))).
Proof.
  split; [intros v Hp Ht; exact (given_kid_of_protected msg v Hp Ht)|].
  split.
  { intros v Ht Hu. rewrite (given_kid_of_fallback msg Ht), Hu. reflexivity. }
  assert (Hmissing : ∀ now certs, truthy (default VNone (phdr msg !! KID)) = false →
            uhdr msg !! KID = None →
            verify_ehc now msg certs = Py [] (Raise (KeyError (MissingKey (KInt KID))))).
  { intros now certs Ht Hu. apply verify_ehc_given_kid_raises.
    rewrite (given_kid_of_fallback msg Ht), Hu. reflexivity. }
  split; [exact Hmissing|].
  intros now certs Hp Hu. apply Hmissing; [|exact Hu]. rewrite Hp. reflexivity.
Qed.

Lemma given_kid_of_spec_witness :
  given_kid_of msg_nist = mret (VBytes (b "secp256r"))
  ∧ verify_ehc 150 msg_bare ∅ = Py [] (Raise (KeyError (MissingKey (KInt KID)))).
Proof.
  split.
  - exact (proj1 (given_kid_of_spec msg_nist) (VBytes (b "secp256r")) eq_refl eq_refl).
  - exact (proj2 (proj2 (proj2 (given_kid_of_spec msg_bare))) 150 ∅ eq_refl eq_refl).
Defined.

(** ** The curve table and the key kinds *)

Lemma strip_ignored_app (s1 s2 : string) :
  strip_ignored (String.append s1 s2)
    = String.append (strip_ignored s1) (strip_ignored s2).
Proof.
  induction s1 as [|c s1 IH]; [reflexivity|]. simpl.
  case_bool_decide; simpl; rewrite IH; reflexivity.
Qed.

Lemma lower_app (s1 s2 : string) :
  lower (String.append s1 s2) = String.append (lower s1) (lower s2).
Proof. induction s1 as [|c s1 IH]; [reflexivity|]. simpl. rewrite IH. reflexivity. Qed.

Lemma lower_char_upper (n : nat) :
  (65 ≤ n ≤ 90)%nat → lower_char (ascii_of_nat n) = ascii_of_nat (n + 32).
Proof.
  intros Hn. unfold lower_char.
  rewrite nat_ascii_embedding by lia.
  destruct (Nat.leb_spec 65 n); [|lia]. destruct (Nat.leb_spec n 90); [|lia].
  reflexivity.
Qed.

Section CurveFacts.
Context `{Libraries}.

Lemma scan_is_Some (listing : list (string * CoseCurve))
    (curves : gmap string CoseCurve) (n : string) :
  is_Some (foldl
    (fun curves '(name, curve) =>
       if negb (String.prefix "_" name) && negb (bool_decide (fullname curve = "RESERVED"))
       then <[lower (strip_ignored (fullname curve)) := curve]> curves
       else curves) curves listing !! n)
  ↔ is_Some (curves !! n) ∨ scanned listing n.
Proof.
  revert curves. induction listing as [|[name curve] listing IH]; intros curves.
  - simpl. split; [intros Hn; left; exact Hn|].
    intros [Hn|(name & curve & Hin & _)]; [exact Hn|]. inversion Hin.
  - simpl. rewrite IH. clear IH. unfold scanned. split.
    + intros [Hn|(name' & curve' & Hin & Hrest)].
      * destruct (String.prefix "_" name) eqn:Hp; simpl in Hn; [left; exact Hn|].
        case_bool_decide as Hr; simpl in Hn; [left; exact Hn|].
        destruct (decide (lower (strip_ignored (fullname curve)) = n)) as [Heq|Hne].
        -- right. exists name, curve. split; [left|]. split; [exact Hp|]. split; assumption.
        -- left. rewrite lookup_insert_ne in Hn by exact Hne. exact Hn.
      * right. exists name', curve'. split; [right; exact Hin|exact Hrest].
    + intros [Hn|(name' & curve' & Hin & Hp & Hr & Heq)].
      * left. destruct (String.prefix "_" name); simpl; [exact Hn|].
        case_bool_decide; simpl; [exact Hn|].
        destruct (decide (lower (strip_ignored (fullname curve)) = n)) as [<-|Hne].
        -- rewrite lookup_insert_eq. eauto.
        -- rewrite lookup_insert_ne by exact Hne. exact Hn.
      * apply elem_of_cons in Hin as [Hhd|Hin].
        -- inversion Hhd; subst name' curve'. left. rewrite Hp. simpl.
           rewrite bool_decide_eq_false_2 by exact Hr. simpl.
           subst n. rewrite lookup_insert_eq. eauto.
        -- right. exists name', curve'. repeat split; assumption.
Qed.

(** What [CURVES] supports. *)
Lemma CURVES_is_Some (n : string) :
  is_Some (CURVES !! n)
  ↔ n ∈ ["secp256r1"; "prime256v1"; "secp384r1"; "secp521r1"]
    ∨ scanned cose_keys_curves n.
Proof.
  unfold CURVES. rewrite scan_is_Some.
  assert (is_Some (({[ "secp256r1" := P256; "prime256v1" := P256;
                       "secp384r1" := P384; "secp521r1" := P521 ]}
                      : gmap string CoseCurve) !! n)
          ↔ n ∈ ["secp256r1"; "prime256v1"; "secp384r1"; "secp521r1"]) as ->;
    [|reflexivity].
  rewrite !elem_of_cons, elem_of_nil.
  rewrite !lookup_insert_is_Some, lookup_singleton_is_Some.
  destruct (decide ("secp256r1" = n)), (decide ("prime256v1" = n)),
    (decide ("secp384r1" = n)); intuition congruence.
Qed.

Lemma int_to_bytes_fits (v length : Z) :
  0 <= v < 256 ^ length →
  int_to_bytes v length = Return (be_digits (Z.to_nat length) v).
Proof.
  intros Hv. unfold int_to_bytes.
  destruct (Z.ltb_spec length 0) as [Hneg|Hpos].
  - rewrite Z.pow_neg_r in Hv by exact Hneg. lia.
  - destruct (Z.leb_spec 0 v); [|lia]. destruct (Z.ltb_spec v (256 ^ length)); [|lia].
    reflexivity.
Qed.

Lemma cose_key_of_elliptic (name : string) (key_size x y : Z) :
  0 <= x < 256 ^ (key_size / 8) → 0 <= y < 256 ^ (key_size / 8) →
  result (cose_key_of (EllipticCurvePublicKey name key_size x y))
    = match CURVES !! lower (strip_ignored name) with
      | Some curve =>
          Return (KtyEC2 curve Es256
                    (be_digits (Z.to_nat (key_size / 8)) x)
                    (be_digits (Z.to_nat (key_size / 8)) y))
      | None => Raise (KeyError (UnsupportedCurve name))
      end.
Proof.
  intros Hx Hy. unfold cose_key_of. py_step.
  rewrite (int_to_bytes_fits x _ Hx). py_step.
  rewrite (int_to_bytes_fits y _ Hy). py_step.
  destruct (CURVES !! lower (strip_ignored name)); reflexivity.
Qed.

End CurveFacts.

Lemma strip_ignored_upper (n : nat) (s : string) :
  (65 ≤ n ≤ 90)%nat →
  strip_ignored (String (ascii_of_nat n) s) = String (ascii_of_nat n) (strip_ignored s).
Proof.
  intros Hn. simpl. rewrite bool_decide_eq_false_2; [reflexivity|].
  intros [Hc|[Hc|Hc]]; apply (f_equal nat_of_ascii) in Hc;
    rewrite nat_ascii_embedding in Hc by lia; cbv in Hc; lia.
Qed.

(** C8, as stated, fails: with the curve classes of the cose package, the
    Koblitz curve secp256k1 is none of the NIST curves named by the claim,
    yet the table holds it: for a certificate on it line 261 does not
    raise, the key is rebuilt on that curve and handed to the signature
    check, and what ends verification is not the [KeyError] of an
    unsupported curve. *)
Lemma secp256k1_is_not_refused :
  ("secp256k1" ∉ ["secp256r1"; "prime256v1"; "secp384r1"; "secp521r1"])
  ∧ public_key (toy_certificate (b "secp256k1"))
      = EllipticCurvePublicKey "secp256k1" 256 7 9
  ∧ CURVES !! lower (strip_ignored "secp256k1") = Some cose_SECP256K1
  ∧ result (cose_key_of (public_key (toy_certificate (b "secp256k1"))))
      = Return (KtyEC2 cose_SECP256K1 Es256 (be_digits 32 7) (be_digits 32 9))
  ∧ result (verify_ehc 150 msg_koblitz toy_store)
      = verify_signature msg_koblitz
          (KtyEC2 cose_SECP256K1 Es256 (be_digits 32 7) (be_digits 32 9))
  ∧ result (verify_ehc 150 msg_koblitz toy_store)
      ≠ Raise (KeyError (UnsupportedCurve "secp256k1")).
Proof.
  split; [|split; [reflexivity|split; [reflexivity|split; [reflexivity|split]]]].
  - rewrite !elem_of_cons, elem_of_nil. intros [Hn|[Hn|[Hn|[Hn|[]]]]]; discriminate.
  - vm_compute. reflexivity.
  - vm_compute. discriminate.
Qed.

(** C8, amended: the curve is looked up under its name in lower case
    without hyphens, underscores and spaces; the table holds secp256r1,
    prime256v1, secp384r1, secp521r1 and, besides, the normalised full name
    of every public curve class of the cose package other than the reserved
    one; when the coordinates fit the byte width, a name outside the table
    makes verification raise the [KeyError] of the unsupported curve; a key
    that is neither elliptic-curve nor RSA raises the [KeyError] of the
    unsupported key type. *)
Theorem curve_table_and_key_kinds `{Libraries} :
  (∀ n, is_Some (CURVES !! n)
        ↔ n ∈ ["secp256r1"; "prime256v1"; "secp384r1"; "secp521r1"]
          ∨ scanned cose_keys_curves n)
  ∧ (∀ name key_size x y,
       0 <= x < 256 ^ (key_size / 8) → 0 <= y < 256 ^ (key_size / 8) →
       result (cose_key_of (EllipticCurvePublicKey name key_size x y))
         = match CURVES !! lower (strip_ignored name) with
           | Some curve =>
               Return (KtyEC2 curve Es256
                         (be_digits (Z.to_nat (key_size / 8)) x)
                         (be_digits (Z.to_nat (key_size / 8)) y))
           | None => Raise (KeyError (UnsupportedCurve name))
           end)
  ∧ (∀ now msg certs kid cert name key_size x y,
       result (given_kid_of msg) = Return (VBytes kid) →
       certs !! kid = Some cert →
       public_key cert = EllipticCurvePublicKey name key_size x y →
       0 <= x < 256 ^ (key_size / 8) → 0 <= y < 256 ^ (key_size / 8) →
       CURVES !! lower (strip_ignored name) = None →
       result (verify_ehc now msg certs) = Raise (KeyError (UnsupportedCurve name)))
  ∧ (∀ now msg certs kid cert type_name,
       result (given_kid_of msg) = Return (VBytes kid) →
       certs !! kid = Some cert →
       public_key cert = OtherPublicKey type_name →
       result (verify_ehc now msg certs)
         = Raise (KeyError (UnsupportedPublicKeyType type_name)))
  ∧ (∀ s1 s2, lower (strip_ignored (String.append s1 s2))
              = String.append (lower (strip_ignored s1)) (lower (strip_ignored s2)))
  ∧ (∀ c s, c = "-"%char ∨ c = "_"%char ∨ c = " "%char →
            lower (strip_ignored (String c s)) = lower (strip_ignored s))
  ∧ (∀ n s, (65 ≤ n ≤ 90)%nat →
            lower (strip_ignored (String (ascii_of_nat n) s))
              = String (ascii_of_nat (n + 32)) (lower (strip_ignored s))).
Proof.
  split; [exact CURVES_is_Some|].
  split; [exact cose_key_of_elliptic|].
  split.
  { intros now msg certs kid cert name key_size x y Hkid Hcert Hpk Hx Hy Hnone.
    rewrite (verify_ehc_resolved now msg certs kid cert Hkid Hcert), Hpk.
    rewrite (cose_key_of_elliptic name key_size x y Hx Hy), Hnone. reflexivity. }
  split.
  { intros now msg certs kid cert type_name Hkid Hcert Hpk.
    rewrite (verify_ehc_resolved now msg certs kid cert Hkid Hcert), Hpk. reflexivity. }
  split; [intros s1 s2; rewrite strip_ignored_app, lower_app; reflexivity|].
  split.
  { intros c s Hc. simpl. rewrite bool_decide_eq_true_2 by exact Hc. reflexivity. }
  intros n s Hn. rewrite (strip_ignored_upper n s Hn). simpl.
  rewrite (lower_char_upper n Hn). reflexivity.
Qed.

Lemma curve_table_and_key_kinds_witness :
  result (verify_ehc 150 msg_brainpool toy_store)
    = Raise (KeyError (UnsupportedCurve "brainpoolP256r1"))
  ∧ result (verify_ehc 150 msg_ed25519 toy_store)
    = Raise (KeyError (UnsupportedPublicKeyType "Ed25519PublicKey")).
Proof.
  pose proof (curve_table_and_key_kinds (H := toy_libraries))
    as (_ & _ & Hcurve & Hkind & _).
  split.
  - apply (Hcurve 150 msg_brainpool toy_store (b "brainpoo")
             (toy_certificate (b "brainpoolP256r1")) "brainpoolP256r1" 256 7 9);
      [reflexivity|reflexivity|reflexivity|vm_compute; split; [discriminate|reflexivity]
      |vm_compute; split; [discriminate|reflexivity]|reflexivity].
  - apply (Hkind 150 msg_ed25519 toy_store (b "ed25519.") ed25519_certificate);
      reflexivity.
Defined.

(** ** The transport decoder *)

Lemma index_of_None (c : ascii) (l : list ascii) :
  c ∉ l → index_of c l = None.
Proof.
  induction l as [|c' l IH]; intros Hc; [reflexivity|]. simpl.
  apply not_elem_of_cons in Hc as [Hne Hc].
  rewrite bool_decide_eq_false_2 by congruence. rewrite (IH Hc). reflexivity.
Qed.

(** The modelled base-45 decoder refuses a text with a character outside
    the alphabet. *)
Lemma b45decode_spec_foreign (s : string) (c : ascii) :
  c ∈ list_ascii_of_string s →
  c ∉ list_ascii_of_string BASE45_CHARSET →
  ∃ m, b45decode_spec s = Raise (ValueError m).
Proof.
  intros Hin Hout. unfold b45decode_spec.
  assert (mapM b45_digit (list_ascii_of_string s) = None) as ->.
  { apply eq_None_not_Some. rewrite mapM_is_Some, Forall_forall.
    intros Hall. specialize (Hall c Hin). unfold compose, b45_digit in Hall.
    rewrite (index_of_None c _ Hout) in Hall. destruct Hall as [? [=]]. }
  simpl. eauto.
Qed.

Section DecoderFacts.
Context `{Libraries}.

(** Lines 207-210 compute the stripped text. *)
Lemma hc1_stripped_text (b45_data rest : string) :
  hc1_stripped b45_data rest →
  (if String.prefix "HC1" b45_data then
     if String.prefix ":" (string_drop 3 b45_data)
     then string_drop 1 (string_drop 3 b45_data)
     else string_drop 3 b45_data
   else b45_data) = rest.
Proof.
  assert (Hnil : ∀ s, String.prefix "" s = true) by (intros []; reflexivity).
  intros [rest'|rest' Hcolon|text Hnone].
  - simpl. change (String.append "" rest') with rest'. rewrite Hnil. reflexivity.
  - simpl. change (String.append "" rest') with rest'. rewrite Hnil, Hcolon.
    reflexivity.
  - rewrite Hnone. reflexivity.
Qed.

(** [decode_ehc] after the prefix has been dealt with. *)
Lemma decode_ehc_stripped (b45_data rest : string) :
  hc1_stripped b45_data rest →
  decode_ehc b45_data =
    data ← match b45decode rest with
           | Return data => mret data
           | Raise (ValueError _) => raise (ValueError InvalidBase45String)
           | Raise e => raise e
           end;
    data ← (if bytes_startswith data "x"%byte
            then call (zlib_decompress data)
            else mret data);
    call (CoseMessage_decode data).
Proof.
  intros Hs. unfold decode_ehc. rewrite (hc1_stripped_text b45_data rest Hs).
  reflexivity.
Qed.

Lemma decode_ehc_printed (b45_data : string) : printed (decode_ehc b45_data) = [].
Proof.
  unfold decode_ehc.
  set (text := if String.prefix "HC1" b45_data then _ else _). clearbody text.
  py_step. destruct (b45decode text) as [data|[]]; py_step; try reflexivity.
  destruct (bytes_startswith data "x"); py_step.
  - destruct (zlib_decompress data); reflexivity.
  - destruct (CoseMessage_decode data); reflexivity.
Qed.

End DecoderFacts.

(** C5: whatever the base-45 decoder, provided it refuses characters
    outside the alphabet: the [HC1] prefix and the colon after it are
    stripped, the rest is base-45 decoded, a refusal becoming the
    [ValueError] of an invalid base-45 string, and the decoded bytes are
    inflated exactly when they start with the byte 0x78, and taken as they
    are otherwise. *)
Theorem decode_ehc_transport `{Libraries} (b45_data rest : string) :
  (∀ s c, c ∈ list_ascii_of_string s →
          c ∉ list_ascii_of_string BASE45_CHARSET →
          ∃ m, b45decode s = Raise (ValueError m)) →
  hc1_stripped b45_data rest →
  printed (decode_ehc b45_data) = []
  ∧ (∀ c, c ∈ list_ascii_of_string rest →
          c ∉ list_ascii_of_string BASE45_CHARSET →
          result (decode_ehc b45_data) = Raise (ValueError InvalidBase45String))
  ∧ (∀ data inflated, b45decode rest = Return data →
          head data = Some x78 →
          zlib_decompress data = Return inflated →
          result (decode_ehc b45_data) = CoseMessage_decode inflated)
  ∧ (∀ data e, b45decode rest = Return data →
          head data = Some x78 →
          zlib_decompress data = Raise e →
          result (decode_ehc b45_data) = Raise e)
  ∧ (∀ data, b45decode rest = Return data →
          head data ≠ Some x78 →
          result (decode_ehc b45_data) = CoseMessage_decode data).
Proof.
  intros Hforeign Hs. split; [apply decode_ehc_printed|].
  rewrite (decode_ehc_stripped b45_data rest Hs).
  split.
  { intros c Hin Hout. destruct (Hforeign rest c Hin Hout) as [m Hm].
    py_step. rewrite Hm. reflexivity. }
  split.
  { intros data inflated Hd Hx Hz. py_step. rewrite Hd. py_step.
    destruct data as [|c data]; [discriminate|]. injection Hx as ->.
    cbn [bytes_startswith]. rewrite bool_decide_eq_true_2 by reflexivity.
    py_step. rewrite Hz. reflexivity. }
  split.
  { intros data e Hd Hx Hz. py_step. rewrite Hd. py_step.
    destruct data as [|c data]; [discriminate|]. injection Hx as ->.
    cbn [bytes_startswith]. rewrite bool_decide_eq_true_2 by reflexivity.
    py_step. rewrite Hz. reflexivity. }
  intros data Hd Hx. py_step. rewrite Hd. py_step.
  destruct data as [|c data]; cbn [bytes_startswith]; [reflexivity|].
  rewrite bool_decide_eq_false_2; [reflexivity|]. intros ->. apply Hx. reflexivity.
Qed.

Lemma decode_ehc_transport_witness :
  hc1_stripped "HC1:LQEVPCSF6X*6*.C VD" "LQEVPCSF6X*6*.C VD"
  ∧ result (decode_ehc "HC1:LQEVPCSF6X*6*.C VD") = Return msg_nist
  ∧ result (decode_ehc "HC1:lqevp") = Raise (ValueError InvalidBase45String).
Proof.
  split; [apply (stripped_colon "LQEVPCSF6X*6*.C VD")|].
  split.
  - pose proof (decode_ehc_transport (H := toy_libraries)
                  "HC1:LQEVPCSF6X*6*.C VD" "LQEVPCSF6X*6*.C VD"
                  b45decode_spec_foreign (stripped_colon "LQEVPCSF6X*6*.C VD"))
      as (_ & _ & _ & _ & Hplain).
    apply (Hplain (b "secp256rfull")); [reflexivity|discriminate].
  - pose proof (decode_ehc_transport (H := toy_libraries) "HC1:lqevp" "lqevp"
                  b45decode_spec_foreign (stripped_colon "lqevp"))
      as (_ & Hforeign & _).
    apply (Hforeign "l"%char).
    + apply (bool_decide_unpack ("l"%char ∈ list_ascii_of_string "lqevp")).
      vm_compute. exact I.
    + apply (bool_decide_unpack ("l"%char ∉ list_ascii_of_string BASE45_CHARSET)).
      vm_compute. exact I.
Defined.

(** ** Loops *)

Lemma for_each_cons {A S} (a : A) (l : list A) (body : S → A → py S) (acc : S) :
  for_each (a :: l) body acc = acc' ← body acc a; for_each l body acc'.
Proof. reflexivity. Qed.

(** A property of the loop state that every turn keeps holds of the state
    the loop returns. *)
Lemma for_each_invariant {A S} (P : S → Prop) (body : S → A → py S) (l : list A) :
  (∀ acc a acc', P acc → result (body acc a) = Return acc' → P acc') →
  ∀ acc acc', P acc → result (for_each l body acc) = Return acc' → P acc'.
Proof.
  intros Hbody. induction l as [|a l IH]; intros acc acc' Hacc Hres.
  - injection Hres as <-. exact Hacc.
  - rewrite for_each_cons in Hres.
    apply result_bind_inv in Hres as (acc1 & Hturn & Hrest).
    exact (IH acc1 acc' (Hbody acc a acc1 Hacc Hturn) Hrest).
Qed.

(** ** The loaders *)

Section LoaderFacts.
Context `{Libraries}.

Lemma key_ids_match_empty : key_ids_match ∅.
Proof. intros key_id cert Hlookup. rewrite lookup_empty in Hlookup. discriminate. Qed.

Lemma check_and_insert_match (certs : gmap bytes Certificate) key_id cert :
  key_id = take 8 (fingerprint cert) →
  check_and_insert certs key_id cert = mret (<[key_id := cert]> certs).
Proof.
  intros Heq. unfold check_and_insert.
  rewrite bool_decide_eq_false_2; [reflexivity|]. intros Hne. exact (Hne Heq).
Qed.

Lemma check_and_insert_mismatch (certs : gmap bytes Certificate) key_id cert :
  key_id ≠ take 8 (fingerprint cert) →
  check_and_insert certs key_id cert =
    raise (ValueError (KeyIdMissmatch key_id (take 8 (fingerprint cert)))).
Proof.
  intros Hne. unfold check_and_insert.
  rewrite bool_decide_eq_true_2 by exact Hne. reflexivity.
Qed.

Lemma check_and_insert_keeps (certs certs' : gmap bytes Certificate) key_id cert :
  key_ids_match certs →
  result (check_and_insert certs key_id cert) = Return certs' →
  key_ids_match certs'.
Proof.
  intros Hcerts Hres.
  destruct (decide (key_id = take 8 (fingerprint cert))) as [Heq|Hne].
  - rewrite (check_and_insert_match _ _ _ Heq) in Hres. injection Hres as <-.
    intros k c Hlookup. destruct (decide (key_id = k)) as [<-|Hk].
    + rewrite lookup_insert_eq in Hlookup. injection Hlookup as <-. exact Heq.
    + rewrite lookup_insert_ne in Hlookup by exact Hk. exact (Hcerts k c Hlookup).
  - rewrite (check_and_insert_mismatch _ _ _ Hne) in Hres. discriminate.
Qed.

Lemma load_ehc_certs_cbor_item_keeps (certs : gmap bytes Certificate) item certs' :
  key_ids_match certs →
  result (load_ehc_certs_cbor_item certs item) = Return certs' →
  key_ids_match certs'.
Proof.
  intros Hcerts Hres. unfold load_ehc_certs_cbor_item in Hres.
  apply result_bind_inv in Hres as (key_id & _ & Hres).
  apply result_bind_inv in Hres as (cert_data & _ & Hres).
  apply result_bind_inv in Hres as (cert & _ & Hres).
  destruct key_id; try discriminate.
  exact (check_and_insert_keeps certs certs' _ cert Hcerts Hres).
Qed.

Lemma load_ehc_certs_signed_json_item_keeps (certs : gmap bytes Certificate)
    entry certs' :
  key_ids_match certs →
  result (load_ehc_certs_signed_json_item certs entry) = Return certs' →
  key_ids_match certs'.
Proof.
  intros Hcerts Hres. unfold load_ehc_certs_signed_json_item in Hres.
  apply result_bind_inv in Hres as (kid & _ & Hres).
  apply result_bind_inv in Hres as (key_id & _ & Hres).
  apply result_bind_inv in Hres as (country & _ & Hres).
  apply result_bind_inv in Hres as (cert_type & _ & Hres).
  destruct (negb _).
  - apply result_bind_inv in Hres as (? & _ & Hres). injection Hres as <-. exact Hcerts.
  - apply result_bind_inv in Hres as (raw & _ & Hres).
    apply result_bind_inv in Hres as (raw_data & _ & Hres).
    apply result_bind_inv in Hres as (cert & _ & Hres).
    exact (check_and_insert_keeps certs certs' _ cert Hcerts Hres).
Qed.

(** Every store a loader returns satisfies the invariant. *)
Lemma load_ehc_certs_cbor_key_ids (cbor_data : bytes) certs :
  result (load_ehc_certs_cbor cbor_data) = Return certs → key_ids_match certs.
Proof.
  intros Hres. unfold load_ehc_certs_cbor in Hres.
  apply result_bind_inv in Hres as (certs_data & _ & Hres).
  apply result_bind_inv in Hres as (c & _ & Hres).
  apply result_bind_inv in Hres as (items & _ & Hres).
  exact (for_each_invariant key_ids_match _ items load_ehc_certs_cbor_item_keeps
           ∅ certs key_ids_match_empty Hres).
Qed.

Lemma load_ehc_certs_signed_json_key_ids (data : bytes) pubkey certs :
  result (load_ehc_certs_signed_json data pubkey) = Return certs →
  key_ids_match certs.
Proof.
  intros Hres. unfold load_ehc_certs_signed_json in Hres.
  apply result_bind_inv in Hres as ([sign_b64 body_json] & _ & Hres).
  apply result_bind_inv in Hres as (sign & _ & Hres).
  apply result_bind_inv in Hres as (body & _ & Hres).
  apply result_bind_inv in Hres as (? & _ & Hres).
  apply result_bind_inv in Hres as (certificates & _ & Hres).
  apply result_bind_inv in Hres as (entries & _ & Hres).
  exact (for_each_invariant key_ids_match _ entries
           load_ehc_certs_signed_json_item_keeps ∅ certs key_ids_match_empty Hres).
Qed.

End LoaderFacts.

Section FailClosed.
Context `{Libraries}.

Lemma cbor_item_parses_body (certs : gmap bytes Certificate) item key_id cert :
  cbor_item_parses item key_id cert →
  load_ehc_certs_cbor_item certs item = check_and_insert certs key_id cert.
Proof.
  intros (Hi & cert_data & Hc & Hder). unfold load_ehc_certs_cbor_item.
  rewrite Hi, call_return_bind, Hc, call_return_bind, Hder, call_return_bind.
  reflexivity.
Qed.

Lemma cbor_item_parses_inj item key_id cert key_id' cert' :
  cbor_item_parses item key_id cert → cbor_item_parses item key_id' cert' →
  key_id = key_id' ∧ cert = cert'.
Proof.
  intros (Hi & cert_data & Hc & Hder) (Hi' & cert_data' & Hc' & Hder').
  rewrite Hi in Hi'. injection Hi' as <-.
  rewrite Hc in Hc'. injection Hc' as <-.
  rewrite Hder in Hder'. injection Hder' as <-. split; reflexivity.
Qed.

Lemma cbor_loop_fail_closed (items : list value) (certs : gmap bytes Certificate) :
  Forall (λ item, ∃ key_id cert, cbor_item_parses item key_id cert) items →
  Exists (λ item, ∃ key_id cert, cbor_item_parses item key_id cert
                    ∧ key_id ≠ take 8 (fingerprint cert)) items →
  ∃ key_id fingerprint8,
    for_each items load_ehc_certs_cbor_item certs
      = Py [] (Raise (ValueError (KeyIdMissmatch key_id fingerprint8))).
Proof.
  intros Hall. revert certs.
  induction Hall as [|item items (key_id & cert & Hparse) Hall IH]; intros certs Hex.
  - inversion Hex.
  - rewrite for_each_cons, (cbor_item_parses_body certs item key_id cert Hparse).
    destruct (decide (key_id = take 8 (fingerprint cert))) as [Heq|Hne].
    + rewrite (check_and_insert_match certs key_id cert Heq), mret_bind.
      apply IH. apply Exists_cons in Hex as [(key_id' & cert' & Hparse' & Hne')|Hex];
        [|exact Hex].
      destruct (cbor_item_parses_inj _ _ _ _ _ Hparse Hparse') as [<- <-].
      contradiction.
    + rewrite (check_and_insert_mismatch certs key_id cert Hne).
      exists key_id, (take 8 (fingerprint cert)). reflexivity.
Qed.

Lemma cbor_list_reads_loop (cbor_data : bytes) (items : list value) :
  cbor_list_reads cbor_data items →
  load_ehc_certs_cbor cbor_data = for_each items load_ehc_certs_cbor_item ∅.
Proof.
  intros (certs_data & c & Hloads & Hc & Hiter). unfold load_ehc_certs_cbor.
  rewrite Hloads, call_return_bind, Hc, call_return_bind, Hiter, call_return_bind.
  reflexivity.
Qed.

Lemma is_not_dsc (cert_type : value) :
  negb (match cert_type with VStr s => bool_decide (s = "DSC") | _ => false end) = true
  ↔ cert_type ≠ VStr "DSC".
Proof.
  destruct cert_type as [| | |s| |]; simpl; try (split; [discriminate|reflexivity]).
  case_bool_decide as Hs; simpl.
  - subst s. split; [discriminate|]. intros Hne. contradiction.
  - split; [|reflexivity]. intros _ [= Heq]. contradiction.
Qed.

Lemma json_entry_skipped_body (certs : gmap bytes Certificate) entry
    cert_type country key_id :
  json_entry_skipped entry cert_type country key_id →
  load_ehc_certs_signed_json_item certs entry
    = Py [WarnUnknownCertificateType cert_type country key_id] (Return certs).
Proof.
  intros ((kid & Hkid & Hdec) & Hcountry & Htype & Hne).
  unfold load_ehc_certs_signed_json_item.
  rewrite Hkid, call_return_bind, Hdec, call_return_bind, Hcountry, call_return_bind,
    Htype, call_return_bind.
  apply is_not_dsc in Hne. rewrite Hne. reflexivity.
Qed.

Lemma json_entry_parses_body (certs : gmap bytes Certificate) entry key_id cert :
  json_entry_parses entry key_id cert →
  load_ehc_certs_signed_json_item certs entry = check_and_insert certs key_id cert.
Proof.
  intros ((kid & Hkid & Hdec) & (country & Hcountry) & Htype
          & raw & raw_data & Hraw & Hrawdec & Hder).
  unfold load_ehc_certs_signed_json_item.
  rewrite Hkid, call_return_bind, Hdec, call_return_bind, Hcountry, call_return_bind,
    Htype, call_return_bind.
  cbn [negb]. rewrite bool_decide_eq_true_2 by reflexivity. cbn [negb].
  rewrite Hraw, call_return_bind, Hrawdec, call_return_bind, Hder, call_return_bind.
  reflexivity.
Qed.

Lemma json_entry_parses_inj entry key_id cert key_id' cert' :
  json_entry_parses entry key_id cert → json_entry_parses entry key_id' cert' →
  key_id = key_id' ∧ cert = cert'.
Proof.
  intros ((kid & Hkid & Hdec) & _ & _ & raw & raw_data & Hraw & Hrawdec & Hder)
         ((kid' & Hkid' & Hdec') & _ & _ & raw' & raw_data' & Hraw' & Hrawdec' & Hder').
  rewrite Hkid in Hkid'. injection Hkid' as <-.
  rewrite Hdec in Hdec'. injection Hdec' as <-.
  rewrite Hraw in Hraw'. injection Hraw' as <-.
  rewrite Hrawdec in Hrawdec'. injection Hrawdec' as <-.
  rewrite Hder in Hder'. injection Hder' as <-. split; reflexivity.
Qed.

Lemma json_entry_parses_not_skipped entry key_id cert cert_type country key_id' :
  json_entry_parses entry key_id cert →
  ¬ json_entry_skipped entry cert_type country key_id'.
Proof.
  intros (_ & _ & Htype & _) (_ & _ & Htype' & Hne).
  rewrite Htype in Htype'. injection Htype' as <-. contradiction.
Qed.

Lemma json_loop_fail_closed (entries : list value) (certs : gmap bytes Certificate) :
  Forall (λ entry, (∃ cert_type country key_id,
                      json_entry_skipped entry cert_type country key_id)
                   ∨ ∃ key_id cert, json_entry_parses entry key_id cert) entries →
  Exists (λ entry, ∃ key_id cert, json_entry_parses entry key_id cert
                     ∧ key_id ≠ take 8 (fingerprint cert)) entries →
  ∃ key_id fingerprint8,
    result (for_each entries load_ehc_certs_signed_json_item certs)
      = Raise (ValueError (KeyIdMissmatch key_id fingerprint8)).
Proof.
  intros Hall. revert certs.
  induction Hall as [|entry entries Hentry Hall IH]; intros certs Hex.
  - inversion Hex.
  - rewrite for_each_cons, result_bind.
    destruct Hentry as [(cert_type & country & key_id & Hskip)|(key_id & cert & Hparse)].
    + rewrite (json_entry_skipped_body certs entry _ _ _ Hskip). cbn [result].
      apply IH. apply Exists_cons in Hex as [(key_id' & cert' & Hparse' & _)|Hex];
        [|exact Hex].
      destruct (json_entry_parses_not_skipped _ _ _ _ _ _ Hparse' Hskip).
    + rewrite (json_entry_parses_body certs entry key_id cert Hparse).
      destruct (decide (key_id = take 8 (fingerprint cert))) as [Heq|Hne].
      * rewrite (check_and_insert_match certs key_id cert Heq). cbn [result mret py_ret].
        apply IH. apply Exists_cons in Hex as [(key_id' & cert' & Hparse' & Hne')|Hex];
          [|exact Hex].
        destruct (json_entry_parses_inj _ _ _ _ _ Hparse Hparse') as [<- <-].
        contradiction.
      * rewrite (check_and_insert_mismatch certs key_id cert Hne).
        exists key_id, (take 8 (fingerprint cert)). reflexivity.
Qed.

Lemma check_list_signature_accepted (pubkey : PublicKey) (sign body_json : bytes) :
  list_signature_accepted (Some pubkey) sign body_json →
  check_list_signature pubkey sign body_json = mret tt.
Proof.
  intros [u Hu]. unfold check_list_signature. cbv zeta. rewrite Hu. reflexivity.
Qed.

Lemma json_list_reads_loop (data sign body_json : bytes) (entries : list value)
    (pubkey : option PublicKey) :
  json_list_reads data sign body_json entries →
  list_signature_accepted pubkey sign body_json →
  load_ehc_certs_signed_json data pubkey
    = for_each entries load_ehc_certs_signed_json_item ∅.
Proof.
  intros (sign_b64 & body & certificates & Hsplit & Hsign & Hbody & Hcerts & Hiter) Hok.
  unfold load_ehc_certs_signed_json.
  rewrite Hsplit. cbn [get_or_raise]. rewrite mret_bind.
  rewrite Hsign, call_return_bind, Hbody, call_return_bind.
  destruct pubkey as [pubkey|].
  - rewrite (check_list_signature_accepted pubkey sign body_json Hok), mret_bind.
    rewrite Hcerts, call_return_bind, Hiter, call_return_bind. reflexivity.
  - rewrite mret_bind, Hcerts, call_return_bind, Hiter, call_return_bind. reflexivity.
Qed.

End FailClosed.

(** C3: every store that either loader returns files each certificate
    under the first eight bytes of the SHA-256 fingerprint of its DER
    encoding; and a list one of whose (parsing) elements declares another
    key id makes the loader raise the [ValueError] of the key id mismatch,
    so that it returns no store at all. *)
Theorem loaders_fail_closed `{Libraries} :
  (∀ cbor_data certs,
     result (load_ehc_certs_cbor cbor_data) = Return certs →
     ∀ key_id cert, certs !! key_id = Some cert → key_id = take 8 (SHA256 (der cert)))
  ∧ (∀ data pubkey certs,
     result (load_ehc_certs_signed_json data pubkey) = Return certs →
     ∀ key_id cert, certs !! key_id = Some cert → key_id = take 8 (SHA256 (der cert)))
  ∧ (∀ cbor_data items,
     cbor_list_reads cbor_data items →
     Forall (λ item, ∃ key_id cert, cbor_item_parses item key_id cert) items →
     Exists (λ item, ∃ key_id cert, cbor_item_parses item key_id cert
                       ∧ key_id ≠ take 8 (SHA256 (der cert))) items →
     ∃ key_id fingerprint8,
       result (load_ehc_certs_cbor cbor_data)
         = Raise (ValueError (KeyIdMissmatch key_id fingerprint8)))
  ∧ (∀ data pubkey sign body_json entries,
     json_list_reads data sign body_json entries →
     list_signature_accepted pubkey sign body_json →
     Forall (λ entry, (∃ cert_type country key_id,
                         json_entry_skipped entry cert_type country key_id)
                      ∨ ∃ key_id cert, json_entry_parses entry key_id cert) entries →
     Exists (λ entry, ∃ key_id cert, json_entry_parses entry key_id cert
                        ∧ key_id ≠ take 8 (SHA256 (der cert))) entries →
     ∃ key_id fingerprint8,
       result (load_ehc_certs_signed_json data pubkey)
         = Raise (ValueError (KeyIdMissmatch key_id fingerprint8))).
Proof.
  split; [exact load_ehc_certs_cbor_key_ids|].
  split; [exact load_ehc_certs_signed_json_key_ids|].
  split.
  - intros cbor_data items Hreads Hall Hex.
    rewrite (cbor_list_reads_loop cbor_data items Hreads).
    destruct (cbor_loop_fail_closed items ∅ Hall Hex) as (key_id & fp & Hloop).
    exists key_id, fp. rewrite Hloop. reflexivity.
  - intros data pubkey sign body_json entries Hreads Hok Hall Hex.
    rewrite (json_list_reads_loop data sign body_json entries pubkey Hreads Hok).
    exact (json_loop_fail_closed entries ∅ Hall Hex).
Qed.

Lemma loaders_fail_closed_witness :
  result (load_ehc_certs_cbor (b "secp256r1"))
    = Return {[ b "secp256r" := toy_certificate (b "secp256r1") ]}
  ∧ b "secp256r" = take 8 (SHA256 (der (toy_certificate (b "secp256r1"))))
  ∧ ∃ key_id fingerprint8,
      result (load_ehc_certs_cbor (b "secp256r1
!secp384r1"))
        = Raise (ValueError (KeyIdMissmatch key_id fingerprint8)).
Proof.
  pose proof (loaders_fail_closed (H := toy_libraries)) as (Hcbor & _ & Hclosed & _).
  split; [reflexivity|]. split.
  - apply (Hcbor (b "secp256r1") {[ b "secp256r" := toy_certificate (b "secp256r1") ]});
      reflexivity.
  - apply (Hclosed _ [toy_item (b "secp256r1"); toy_item (b "!secp384r1")]).
    + eexists _, _. split; [reflexivity|]. split; reflexivity.
    + repeat constructor.
      * eexists _, _. split; [reflexivity|]. eexists. split; reflexivity.
      * eexists _, _. split; [reflexivity|]. eexists. split; reflexivity.
    + right. left. eexists _, _. split.
      * split; [reflexivity|]. eexists. split; reflexivity.
      * discriminate.
Defined.

(** ** The signature of the signed-JSON list *)

Lemma int_from_bytes_acc (acc : Z) (bs : bytes) :
  foldl (fun acc c => acc * 256 + Z.of_N (Byte.to_N c)) acc bs
    = acc * 256 ^ Z.of_nat (length bs) + int_from_bytes bs.
Proof.
  unfold int_from_bytes. revert acc. induction bs as [|c bs IH]; intros acc.
  - simpl. lia.
  - cbn [foldl length]. rewrite (IH (acc * 256 + _)), (IH (0 * 256 + _)).
    rewrite Nat2Z.inj_succ, Z.pow_succ_r by lia. lia.
Qed.

(** Big-endian: the bytes in front weigh more. *)
Lemma int_from_bytes_app (hi lo : bytes) :
  int_from_bytes (hi ++ lo)
    = int_from_bytes hi * 256 ^ Z.of_nat (length lo) + int_from_bytes lo.
Proof.
  unfold int_from_bytes at 1. rewrite foldl_app.
  fold (int_from_bytes hi). apply int_from_bytes_acc.
Qed.

(** Unsigned, and as wide as the bytes. *)
Lemma int_from_bytes_bounds (bs : bytes) :
  0 <= int_from_bytes bs < 256 ^ Z.of_nat (length bs).
Proof.
  induction bs as [|c bs IH] using rev_ind.
  - unfold int_from_bytes. simpl. lia.
  - rewrite int_from_bytes_app, length_app. cbn [length].
    replace (Z.of_nat (length bs + 1)) with (Z.succ (Z.of_nat (length bs))) by lia.
    rewrite Z.pow_succ_r by lia.
    assert (0 <= int_from_bytes [c] < 256).
    { unfold int_from_bytes. cbn [foldl]. pose proof (Byte.to_N_bounded c). lia. }
    change (256 ^ Z.of_nat 1) with 256. nia.
Qed.

Lemma split_newline_spec (data before after : bytes) :
  split_newline data = Some (before, after) →
  data = before ++ x0a :: after ∧ x0a ∉ before.
Proof.
  revert before. induction data as [|c data IH]; intros before Hsplit; [discriminate|].
  cbn [split_newline] in Hsplit. case_bool_decide as Hc.
  - injection Hsplit as <- <-. subst c. split; [reflexivity|]. apply not_elem_of_nil.
  - destruct (split_newline data) as [[before' after']|] eqn:Hrest; [|discriminate].
    injection Hsplit as <- <-. destruct (IH before' eq_refl) as [-> Hnot].
    split; [reflexivity|]. apply not_elem_of_cons. split; [congruence|exact Hnot].
Qed.

(** C7: the signature bytes are cut at half their length; [r] and [s] are
    the big-endian unsigned values of the two parts; they are re-encoded
    and verified over the bytes after the first newline, the very bytes
    parsed as JSON; a rejected signature makes the loader raise the
    [ValueError] of the invalid list signature and return no store; and an
    entry of another type than DSC is reported on stderr, leaves the store
    as it is, and the loop goes on with the next entry. *)
Theorem signed_json_signature_and_types `{Libraries} :
  (∀ sign : bytes,
     let half := (length sign / 2)%nat in
     take half sign ++ drop half sign = sign
     ∧ length (take half sign) = half
     ∧ (Nat.Even (length sign) → length (drop half sign) = half)
     ∧ int_from_bytes sign
         = int_from_bytes (take half sign) * 256 ^ Z.of_nat (length (drop half sign))
           + int_from_bytes (drop half sign)
     ∧ 0 <= int_from_bytes (take half sign) < 256 ^ Z.of_nat half
     ∧ 0 <= int_from_bytes (drop half sign) < 256 ^ Z.of_nat (length (drop half sign)))
  ∧ (∀ data sign_b64 body_json,
     split_newline data = Some (sign_b64, body_json) →
     data = sign_b64 ++ x0a :: body_json ∧ x0a ∉ sign_b64)
  ∧ (∀ data sign_b64 body_json sign body pubkey,
     split_newline data = Some (sign_b64, body_json) →
     b64decode sign_b64 = Return sign →
     json_loads body_json = Return body →
     ecdsa_sha256_verify pubkey
       (encode_dss_signature (int_from_bytes (take (length sign / 2)%nat sign))
                             (int_from_bytes (drop (length sign / 2)%nat sign)))
       body_json = Raise InvalidSignature →
     load_ehc_certs_signed_json data (Some pubkey)
       = Py [] (Raise (ValueError (InvalidSignatureTrustList sign))))
  ∧ (∀ data sign body_json entries pubkey,
     json_list_reads data sign body_json entries →
     list_signature_accepted pubkey sign body_json →
     load_ehc_certs_signed_json data pubkey
       = for_each entries load_ehc_certs_signed_json_item ∅)
  ∧ (∀ certs entry rest cert_type country key_id,
     json_entry_skipped entry cert_type country key_id →
     load_ehc_certs_signed_json_item certs entry
       = Py [WarnUnknownCertificateType cert_type country key_id] (Return certs)
     ∧ for_each (entry :: rest) load_ehc_certs_signed_json_item certs
       = Py (WarnUnknownCertificateType cert_type country key_id
               :: printed (for_each rest load_ehc_certs_signed_json_item certs))
            (result (for_each rest load_ehc_certs_signed_json_item certs))).
Proof.
  split.
  { intros sign half.
    assert (Hhalf : (half ≤ length sign)%nat) by (apply Nat.Div0.div_le_upper_bound; lia).
    split; [apply take_drop|].
    split; [rewrite length_take; lia|].
    split.
    { intros [k Hk]. rewrite length_drop. unfold half. rewrite Hk.
      replace (2 * k)%nat with (k * 2)%nat by lia. rewrite Nat.div_mul by lia. lia. }
    split.
    { rewrite <- int_from_bytes_app, take_drop. reflexivity. }
    split.
    { pose proof (int_from_bytes_bounds (take half sign)) as Hb.
      rewrite length_take in Hb. replace (half `min` length sign)%nat with half in Hb by lia.
      exact Hb. }
    apply int_from_bytes_bounds. }
  split; [exact split_newline_spec|].
  split.
  { intros data sign_b64 body_json sign body pubkey Hsplit Hsign Hbody Hverify.
    unfold load_ehc_certs_signed_json.
    rewrite Hsplit. cbn [get_or_raise]. rewrite mret_bind.
    rewrite Hsign, call_return_bind, Hbody, call_return_bind.
    unfold check_list_signature. cbv zeta. rewrite Hverify. reflexivity. }
  split; [exact json_list_reads_loop|].
  intros certs entry rest cert_type country key_id Hskip.
  split; [exact (json_entry_skipped_body certs entry _ _ _ Hskip)|].
  rewrite for_each_cons, (json_entry_skipped_body certs entry _ _ _ Hskip).
  reflexivity.
Qed.

Lemma signed_json_signature_and_types_witness :
  load_ehc_certs_signed_json (b "abcd
secp256r1") (Some (RSAPublicKey 3 5))
    = Py [] (Raise (ValueError (InvalidSignatureTrustList (b "abcd"))))
  ∧ load_ehc_certs_signed_json_item ∅ (toy_item (b "#csca"))
    = Py [WarnUnknownCertificateType (VStr "CSCA") (VStr "AT") (b "#csca")] (Return ∅).
Proof.
  pose proof (signed_json_signature_and_types (H := toy_libraries))
    as (_ & _ & Hrejected & _ & Hskipped).
  split.
  - apply (Hrejected _ (b "abcd") (b "secp256r1") (b "abcd")
             (toy_trust_list (b "secp256r1"))); reflexivity.
  - apply (Hskipped ∅ (toy_item (b "#csca")) []).
    split; [eexists; split; reflexivity|].
    split; [reflexivity|]. split; [reflexivity|discriminate].
Defined.

(** ** Merging the sources *)

Lemma bind_assoc {A B C} (m : py A) (f : A → py B) (g : B → py C) :
  (m ≫= f) ≫= g = m ≫= (λ a, f a ≫= g).
Proof.
  unfold mbind, py_bind. destruct m as [out [a|e]]; cbn [result printed]; [|reflexivity].
  destruct (f a) as [out' [b'|e]]; cbn [result printed]; [|reflexivity].
  rewrite app_assoc. reflexivity.
Qed.

Lemma bind_ext {A B} (m : py A) (f g : A → py B) :
  (∀ a, f a = g a) → m ≫= f = m ≫= g.
Proof.
  intros Hfg. unfold mbind, py_bind. destruct m as [out [a|e]]; [|reflexivity].
  rewrite (Hfg a). reflexivity.
Qed.

Lemma for_each_app {A S} (l1 l2 : list A) (body : S → A → py S) (acc : S) :
  for_each (l1 ++ l2) body acc = acc' ← for_each l1 body acc; for_each l2 body acc'.
Proof.
  revert acc. induction l1 as [|a l1 IH]; intros acc.
  - cbn [app for_each]. rewrite mret_bind. reflexivity.
  - cbn [app for_each]. rewrite bind_assoc. apply bind_ext. intros acc'. apply IH.
Qed.

Section Merging.
Context `{Libraries}.

(** A turn of the loop adds what the source yields on its own on top of
    what was loaded before. *)
Lemma download_ehc_certs_source_union (certs : gmap bytes Certificate) (source : string) :
  download_ehc_certs_source certs source
    = loaded ← download_ehc_certs_source ∅ source; mret (loaded ∪ certs).
Proof.
  unfold download_ehc_certs_source.
  destruct (bool_decide (source = "AT")); [|destruct (bool_decide (source = "DE"))].
  - repeat (rewrite bind_assoc; apply bind_ext; intros ?).
    rewrite mret_bind, (right_id_L ∅ (∪)). reflexivity.
  - repeat (rewrite bind_assoc; apply bind_ext; intros ?).
    rewrite mret_bind, (right_id_L ∅ (∪)). reflexivity.
  - reflexivity.
Qed.

Lemma download_ehc_certs_single (source : string) :
  download_ehc_certs [source] = download_ehc_certs_source ∅ source.
Proof.
  unfold download_ehc_certs. cbn [for_each].
  unfold mbind, py_bind. destruct (download_ehc_certs_source ∅ source) as [out [a|e]];
    cbn [result printed mret py_ret]; [rewrite app_nil_r|]; reflexivity.
Qed.

Lemma download_turn_result (certs certs' : gmap bytes Certificate) (source : string) :
  result (download_ehc_certs_source certs source) = Return certs' →
  ∃ loaded, result (download_ehc_certs [source]) = Return loaded
            ∧ certs' = loaded ∪ certs.
Proof.
  rewrite download_ehc_certs_source_union, download_ehc_certs_single.
  intros Hres. apply result_bind_inv in Hres as (loaded & Hloaded & Hret).
  injection Hret as <-. exists loaded. split; [exact Hloaded|reflexivity].
Qed.

(** Sources that do not define a key id leave its entry alone. *)
Lemma download_rest_keeps (after : list string) (certs final : gmap bytes Certificate)
    (key_id : bytes) :
  (∀ source loaded, source ∈ after →
     result (download_ehc_certs [source]) = Return loaded → loaded !! key_id = None) →
  result (for_each after download_ehc_certs_source certs) = Return final →
  final !! key_id = certs !! key_id.
Proof.
  revert certs. induction after as [|source after IH]; intros certs Hafter Hres.
  - injection Hres as <-. reflexivity.
  - rewrite for_each_cons in Hres.
    apply result_bind_inv in Hres as (certs' & Hturn & Hrest).
    apply download_turn_result in Hturn as (loaded & Hloaded & ->).
    rewrite (IH (loaded ∪ certs)); [| |exact Hrest].
    + apply lookup_union_r. apply (Hafter source loaded); [left|exact Hloaded].
    + intros source' loaded' Hin. apply Hafter. right. exact Hin.
Qed.

End Merging.

(** C9: the sources are loaded in the order of the list, each on top of
    the ones before it; a key id that a source defines, and that no source
    after it defines, is mapped to the certificate of that source, whatever
    the earlier ones said; and the store holds one entry per key id. *)
Theorem later_source_overwrites `{Libraries} (before after : list string) (source : string)
    (final loaded : gmap bytes Certificate) (key_id : bytes) (cert : Certificate) :
  result (download_ehc_certs (before ++ source :: after)) = Return final →
  result (download_ehc_certs [source]) = Return loaded →
  loaded !! key_id = Some cert →
  (∀ source' loaded', source' ∈ after →
     result (download_ehc_certs [source']) = Return loaded' →
     loaded' !! key_id = None) →
  final !! key_id = Some cert
  ∧ NoDup (map_to_list final).*1
  ∧ (∀ earlier, after = [] →
       result (download_ehc_certs before) = Return earlier →
       final = loaded ∪ earlier).
Proof.
  intros Hfinal Hloaded Hcert Hafter.
  unfold download_ehc_certs in Hfinal. rewrite for_each_app in Hfinal.
  apply result_bind_inv in Hfinal as (earlier & Hearlier & Hfinal).
  rewrite for_each_cons in Hfinal.
  apply result_bind_inv in Hfinal as (certs' & Hturn & Hrest).
  apply download_turn_result in Hturn as (loaded' & Hloaded' & ->).
  rewrite Hloaded in Hloaded'. injection Hloaded' as <-.
  split.
  { rewrite (download_rest_keeps after _ final key_id Hafter Hrest).
    apply lookup_union_Some_l. exact Hcert. }
  split; [apply NoDup_fst_map_to_list|].
  intros earlier' -> Hearlier'. unfold download_ehc_certs in Hearlier'.
  rewrite Hearlier in Hearlier'. injection Hearlier' as <-.
  injection Hrest as <-. reflexivity.
Qed.

Lemma later_source_overwrites_witness :
  result (download_ehc_certs ["DE"]) = Return toy_store_de
  ∧ result (download_ehc_certs ["AT"]) = Return toy_store_at
  ∧ toy_store_de !! b "secp256r" = Some (toy_certificate (b "secp256r1"))
  ∧ result (download_ehc_certs (["DE"] ++ "AT" :: [])) = Return toy_store_merged
  ∧ toy_store_merged !! b "secp256r" = Some (toy_certificate (b "secp256r1-at")).
Proof.
  split; [reflexivity|]. split; [reflexivity|]. split; [reflexivity|].
  split; [reflexivity|].
  apply (later_source_overwrites ["DE"] [] "AT" toy_store_merged toy_store_at
           (b "secp256r") (toy_certificate (b "secp256r1-at")));
    [reflexivity|reflexivity|reflexivity|].
  intros source' loaded' Hin. inversion Hin.
Defined.

(** ** The loop of [main] *)

Lemma no_payload_line_bind {A B} (m : py A) (f : A → py B) :
  no_payload_line m → (∀ a, no_payload_line (f a)) → no_payload_line (m ≫= f).
Proof.
  unfold no_payload_line. intros Hm Hf. rewrite printed_bind.
  destruct (result m) as [a|e]; [|exact Hm].
  apply Forall_app. split; [exact Hm|exact (Hf a)].
Qed.

Lemma no_payload_line_silent {A} (o : outcome A) : no_payload_line (Py [] o).
Proof. apply Forall_nil_2. Qed.

Lemma no_payload_line_print (l : line) :
  is_payload_line l = false → no_payload_line (print l).
Proof. intros Hl. apply Forall_cons. split; [exact Hl|apply Forall_nil_2]. Qed.

Lemma no_payload_line_for_each {A S} (l : list A) (body : S → A → py S) (acc : S) :
  (∀ acc a, no_payload_line (body acc a)) → no_payload_line (for_each l body acc).
Proof.
  intros Hbody. revert acc. induction l as [|a l IH]; intros acc.
  - apply Forall_nil_2.
  - rewrite for_each_cons. apply no_payload_line_bind; [apply Hbody|exact IH].
Qed.

(** Closes a goal [no_payload_line m] by following the shape of [m]. *)
Ltac no_payload :=
  repeat first
    [ apply no_payload_line_silent
    | apply no_payload_line_print; reflexivity
    | apply no_payload_line_bind; [|intros ?]
    | match goal with
      | |- no_payload_line (match ?x with _ => _ end) => destruct x
      | |- no_payload_line (if ?x then _ else _) => destruct x
      end ].

Section MainFacts.
Context `{Libraries}.

Lemma verify_ehc_no_payload_line (now : Z) (msg : CoseMessage)
    (certs : gmap bytes Certificate) :
  no_payload_line (verify_ehc now msg certs).
Proof. unfold verify_ehc, given_kid_of, cose_key_of, get_or_raise, call, raise, mret, py_ret. no_payload. Qed.

Lemma print_claims_no_payload_line (now : Z) (ehc_payload : value) :
  no_payload_line (print_claims now ehc_payload).
Proof.
  unfold print_claims. apply no_payload_line_bind; [apply no_payload_line_silent|].
  intros claims. apply no_payload_line_bind.
  - apply no_payload_line_for_each. intros [] [k v]. unfold print_claim, call, mret, py_ret.
    no_payload.
  - intros _. unfold call, mret, py_ret. no_payload.
Qed.

End MainFacts.

Section MainLoop.
Context `{Libraries}.

(** A turn of the loop once the input is decoded. *)
Lemma main_body_decoded (now : Z) (certs : option (gmap bytes Certificate))
    (ehc_code : string) (ehc_msg : CoseMessage) (ehc_payload : value) :
  result (decode_ehc ehc_code) = Return ehc_msg →
  cbor2_loads (payload ehc_msg) = Return ehc_payload →
  main_body now certs tt ehc_code =
    _ ← print_claims now ehc_payload;
    _ ← match certs with
        | Some certs => _ ← verify_ehc now ehc_msg certs; mret tt
        | None => mret tt
        end;
    print_health_claims ehc_payload.
Proof.
  intros Hdecode Hloads. unfold main_body.
  rewrite (py_eta (decode_ehc ehc_code)), decode_ehc_printed, Hdecode.
  change (Py [] (Return ehc_msg)) with (call (Return ehc_msg)).
  rewrite call_return_bind, Hloads, call_return_bind. reflexivity.
Qed.

(** A turn that raises ends the loop. *)
Lemma main_loop_raises (now : Z) (certs : option (gmap bytes Certificate))
    (ehc_code : string) (rest : list string) (e : exception) :
  result (main_body now certs tt ehc_code) = Raise e →
  main_loop now certs (ehc_code :: rest)
    = Py (printed (main_body now certs tt ehc_code)) (Raise e).
Proof. intros Hturn. unfold main_loop. rewrite for_each_cons. exact (bind_raise _ _ e Hturn). Qed.

Lemma print_health_claims_inv (ehc_payload : value) :
  result (print_health_claims ehc_payload) = Return tt →
  ∃ health_claims ehc,
    subscript ehc_payload (KInt (-260)) = Return health_claims
    ∧ subscript health_claims (KInt 1) = Return ehc.
Proof.
  intros Hres. unfold print_health_claims in Hres.
  apply result_bind_inv in Hres as (health_claims & Hhc & Hres).
  apply result_bind_inv in Hres as (ehc & Hehc & _).
  exists health_claims, ehc. split; assumption.
Qed.

Lemma print_health_claims_lacking (claims : list (key * value)) :
  lacks_health_claims claims →
  ∃ k, (k = KInt (-260) ∨ k = KInt 1)
       ∧ print_health_claims (VDict claims) = Py [] (Raise (KeyError (MissingKey k))).
Proof.
  unfold print_health_claims.
  intros [Hnone|(health_claims & Hsome & Hnone)].
  - exists (KInt (-260)). split; [left; reflexivity|].
    cbn [subscript]. rewrite Hnone. reflexivity.
  - exists (KInt 1). split; [right; reflexivity|].
    cbn [subscript]. rewrite Hsome, call_return_bind.
    cbn [subscript]. rewrite Hnone. reflexivity.
Qed.

End MainLoop.


(** C2, as stated, fails: the first input of this batch is signed under a
    key id that the store does not hold; the [KeyError] leaves the loop
    after the flat claims and the key id of that input, its health-claims
    document is never output, and the second input, which is processed to
    the end when given alone, is not touched.  Without verification the
    first input's document is output. *)
Lemma unknown_key_id_aborts_batch :
  main_loop 150 (Some toy_store) ["HC1:2%E7QD54E -D*.C VD"; "HC1:LQEVPCSF6X*6*.C VD"]
    = Py [ LClaim "Issuer" (ShownValue (VStr "AT"));
           LClaim "Expires At" (ShownDatetime 1000);
           LIsExpired false;
           LKeyID (b "unknown.") ]
         (Raise (KeyError (KeyIdNotFound (b "unknown."))))
  ∧ main_loop 150 (Some toy_store) ["HC1:LQEVPCSF6X*6*.C VD"]
    = Py [ LClaim "Issuer" (ShownValue (VStr "AT"));
           LClaim "Expires At" (ShownDatetime 1000);
           LIsExpired false;
           LKeyID (b "secp256r");
           LKeyType "EllipticCurvePublicKey"; LCertSerial 1;
           LCertIssuer "CN=Issuer"; LCertSubject "CN=Subject";
           LCertVersion 2; LCertValidIn 100 200;
           LCertExpired false; LSignatureAlgo "1.2.840.10045.4.3.2";
           LCurve "secp256r1"; LSignatureValid true;
           LPayloadHeader; LPayload "{}"; LBlank ]
         (Return tt)
  ∧ main_loop 150 None ["HC1:2%E7QD54E -D*.C VD"]
    = Py [ LClaim "Issuer" (ShownValue (VStr "AT"));
           LClaim "Expires At" (ShownDatetime 1000);
           LIsExpired false;
           LPayloadHeader; LPayload "{}"; LBlank ]
         (Return tt).
Proof. split; [|split]; vm_compute; reflexivity. Qed.

(** C2, amended: an exception that [verify_ehc] raises on one input, the
    [KeyError] of a missing or unknown key id, of an unsupported curve or
    key type among them, is not caught: it ends the loop of [main].  The
    flat claims of that input were printed before, and so was what
    [verify_ehc] printed; the health-claims document of that input is not
    output; the remaining inputs are not processed. *)
Theorem verification_failure_ends_batch `{Libraries} (now : Z)
    (certs : gmap bytes Certificate) (ehc_code : string) (rest : list string)
    (ehc_msg : CoseMessage) (ehc_payload : value) (e : exception) :
  result (decode_ehc ehc_code) = Return ehc_msg →
  cbor2_loads (payload ehc_msg) = Return ehc_payload →
  result (print_claims now ehc_payload) = Return tt →
  result (verify_ehc now ehc_msg certs) = Raise e →
  main_loop now (Some certs) (ehc_code :: rest)
    = Py (printed (print_claims now ehc_payload)
            ++ printed (verify_ehc now ehc_msg certs))
         (Raise e)
  ∧ Forall (λ l, is_payload_line l = false)
      (printed (main_loop now (Some certs) (ehc_code :: rest))).
Proof.
  intros Hdecode Hloads Hclaims Hverify.
  assert (Hturn : main_body now (Some certs) tt ehc_code
            = Py (printed (print_claims now ehc_payload)
                    ++ printed (verify_ehc now ehc_msg certs))
                 (Raise e)).
  { rewrite (main_body_decoded now (Some certs) ehc_code ehc_msg ehc_payload
               Hdecode Hloads).
    rewrite (bind_return _ _ tt Hclaims).
    rewrite (bind_raise (verify_ehc now ehc_msg certs) _ e Hverify).
    reflexivity. }
  assert (Hloop : main_loop now (Some certs) (ehc_code :: rest)
            = Py (printed (print_claims now ehc_payload)
                    ++ printed (verify_ehc now ehc_msg certs))
                 (Raise e)).
  { rewrite (main_loop_raises now (Some certs) ehc_code rest e); rewrite Hturn; reflexivity. }
  split; [exact Hloop|].
  rewrite Hloop. cbn [printed]. apply Forall_app. split.
  - apply print_claims_no_payload_line.
  - apply verify_ehc_no_payload_line.
Qed.

Lemma verification_failure_ends_batch_witness :
  main_loop 150 (Some toy_store) ["HC1:2%E7QD54E -D*.C VD"; "HC1:LQEVPCSF6X*6*.C VD"]
    = Py (printed (print_claims 150 (toy_claims (b "full")))
            ++ printed (verify_ehc 150 (toy_message (b "unknown.full")) toy_store))
         (Raise (KeyError (KeyIdNotFound (b "unknown.")))).
Proof.
  apply (verification_failure_ends_batch 150 toy_store "HC1:2%E7QD54E -D*.C VD"
           ["HC1:LQEVPCSF6X*6*.C VD"] (toy_message (b "unknown.full"))
           (toy_claims (b "full")) (KeyError (KeyIdNotFound (b "unknown."))));
    vm_compute; reflexivity.
Defined.

(** C10: when the payload map has no entry -260, or its entry -260 is a
    map without the sub-key 1, and the turn gets as far as line 386, that
    is, the flat claims were printed and verification, if asked for,
    returned, then the subscript raises the [KeyError] of the missing key,
    which nothing catches, after the lines of the flat claims and of the
    verification; and a turn of the loop only completes for a payload in
    which [ehc_payload[-260][1]] exists. *)
Theorem health_claims_are_required `{Libraries} (now : Z)
    (certs : option (gmap bytes Certificate)) (ehc_code : string) :
  (∀ ehc_msg claims rest,
     result (decode_ehc ehc_code) = Return ehc_msg →
     cbor2_loads (payload ehc_msg) = Return (VDict claims) →
     lacks_health_claims claims →
     result (print_claims now (VDict claims)) = Return tt →
     (∀ store, certs = Some store →
        ∃ valid, result (verify_ehc now ehc_msg store) = Return valid) →
     ∃ k, (k = KInt (-260) ∨ k = KInt 1)
       ∧ main_loop now certs (ehc_code :: rest)
         = Py (printed (print_claims now (VDict claims))
                 ++ match certs with
                    | Some store => printed (verify_ehc now ehc_msg store)
                    | None => []
                    end)
              (Raise (KeyError (MissingKey k))))
  ∧ (result (main_body now certs tt ehc_code) = Return tt →
     ∃ ehc_msg ehc_payload health_claims ehc,
       result (decode_ehc ehc_code) = Return ehc_msg
       ∧ cbor2_loads (payload ehc_msg) = Return ehc_payload
       ∧ subscript ehc_payload (KInt (-260)) = Return health_claims
       ∧ subscript health_claims (KInt 1) = Return ehc).
Proof.
  split.
  - intros ehc_msg claims rest Hdecode Hloads Hlacks Hclaims Hverify.
    destruct (print_health_claims_lacking claims Hlacks) as (k & Hk & Hraise).
    exists k. split; [exact Hk|].
    assert (Hturn : main_body now certs tt ehc_code
              = Py (printed (print_claims now (VDict claims))
                      ++ match certs with
                         | Some store => printed (verify_ehc now ehc_msg store)
                         | None => []
                         end)
                   (Raise (KeyError (MissingKey k)))).
    { rewrite (main_body_decoded now certs ehc_code ehc_msg (VDict claims) Hdecode Hloads).
      rewrite (bind_return _ _ tt Hclaims).
      destruct certs as [store|].
      - destruct (Hverify store eq_refl) as [valid Hvalid].
        rewrite (bind_return (verify_ehc now ehc_msg store) _ valid Hvalid).
        cbn [mret py_ret printed result]. rewrite app_nil_r.
        change (Py (printed (verify_ehc now ehc_msg store)) (Return tt)
                  ≫= (λ _, print_health_claims (VDict claims)))
          with (let rest := print_health_claims (VDict claims) in
                Py (printed (verify_ehc now ehc_msg store) ++ printed rest) (result rest)).
        cbv zeta. rewrite Hraise. cbn [printed result]. rewrite app_nil_r. reflexivity.
      - rewrite mret_bind, Hraise. cbn [printed result]. rewrite !app_nil_r. reflexivity. }
    rewrite (main_loop_raises now certs ehc_code rest (KeyError (MissingKey k)));
      rewrite Hturn; reflexivity.
  - intros Hres. unfold main_body in Hres.
    apply result_bind_inv in Hres as (ehc_msg & Hdecode & Hres).
    apply result_bind_inv in Hres as (ehc_payload & Hloads & Hres).
    apply result_bind_inv in Hres as (? & _ & Hres).
    apply result_bind_inv in Hres as (? & _ & Hres).
    destruct (print_health_claims_inv ehc_payload Hres) as (health_claims & ehc & Hhc & Hehc).
    exists ehc_msg, ehc_payload, health_claims, ehc.
    repeat split; assumption.
Qed.

Lemma health_claims_are_required_witness :
  (∃ k, (k = KInt (-260) ∨ k = KInt 1)
     ∧ main_loop 150 (Some toy_store) ["HC1:LQEVPCSF6X*6U.CIEC"; "HC1:LQEVPCSF6X*6*.C VD"]
       = Py (printed (print_claims 150 (VDict [(KInt 1, VStr "AT")]))
               ++ printed (verify_ehc 150 (toy_message (b "secp256rflat")) toy_store))
            (Raise (KeyError (MissingKey k))))
  ∧ ∃ ehc_msg ehc_payload health_claims ehc,
      result (decode_ehc "HC1:LQEVPCSF6X*6*.C VD") = Return ehc_msg
      ∧ cbor2_loads (payload ehc_msg) = Return ehc_payload
      ∧ subscript ehc_payload (KInt (-260)) = Return health_claims
      ∧ subscript health_claims (KInt 1) = Return ehc.
Proof.
  split.
  - apply (proj1 (health_claims_are_required 150 (Some toy_store) "HC1:LQEVPCSF6X*6U.CIEC")
             (toy_message (b "secp256rflat")) [(KInt 1, VStr "AT")]
             ["HC1:LQEVPCSF6X*6*.C VD"]).
    + vm_compute. reflexivity.
    + vm_compute. reflexivity.
    + left. reflexivity.
    + vm_compute. reflexivity.
    + intros store [= <-]. exists true. vm_compute. reflexivity.
  - apply (proj2 (health_claims_are_required 150 (Some toy_store) "HC1:LQEVPCSF6X*6*.C VD")).
    vm_compute. reflexivity.
Defined.

(** * Further properties *)

(** ** Integers as bytes *)

Lemma be_digits_length (n : nat) (v : Z) : length (be_digits n v) = n.
Proof.
  revert v. induction n as [|n IH]; intros v; [reflexivity|].
  cbn [be_digits]. rewrite length_app, IH. cbn [length]. lia.
Qed.

Lemma byte_of_Z_value (v : Z) :
  0 <= v < 256 → Z.of_N (Byte.to_N (byte_of_Z v)) = v.
Proof.
  intros Hv. unfold byte_of_Z.
  destruct (Byte.of_N (Z.to_N v)) as [c|] eqn:Hc.
  - apply Byte.to_of_N in Hc. simpl. rewrite Hc. lia.
  - apply Byte.of_N_None_iff in Hc. lia.
Qed.

Lemma int_from_bytes_be_digits (n : nat) (v : Z) :
  int_from_bytes (be_digits n v) = v mod 256 ^ Z.of_nat n.
Proof.
  revert v. induction n as [|n IH]; intros v.
  - cbn [be_digits]. change (int_from_bytes []) with 0. rewrite Z.mod_1_r. reflexivity.
  - cbn [be_digits]. rewrite int_from_bytes_app, IH. cbn [length].
    change (256 ^ Z.of_nat 1) with 256.
    assert (Hlow : int_from_bytes [default x00 (Byte.of_N (Z.to_N (v mod 256)))] = v mod 256).
    { unfold int_from_bytes. cbn [foldl].
      pose proof (byte_of_Z_value (v mod 256)) as Hb. unfold byte_of_Z in Hb.
      rewrite Hb by (apply Z.mod_pos_bound; lia). lia. }
    rewrite Hlow, Nat2Z.inj_succ, Z.pow_succ_r by lia.
    rewrite (Z.rem_mul_r v 256 (256 ^ Z.of_nat n)) by lia. lia.
Qed.

(** X1: [to_bytes] and [from_bytes] are inverse: when [v.to_bytes(length,
    "big")] returns, it returns exactly [length] bytes, and
    [int.from_bytes] reads [v] back from them; it returns exactly for the
    non-negative [v] below [256 ** length]. *)
Theorem int_to_bytes_round_trip (v length : Z) (bs : bytes) :
  int_to_bytes v length = Return bs →
  Z.of_nat (List.length bs) = length
  ∧ int_from_bytes bs = v
  ∧ 0 <= v < 256 ^ length.
Proof.
  unfold int_to_bytes.
  destruct (Z.ltb_spec length 0) as [Hneg|Hlen]; [discriminate|].
  destruct (Z.leb_spec 0 v) as [Hpos|]; [|discriminate].
  destruct (Z.ltb_spec v (256 ^ length)) as [Hfit|]; [|discriminate].
  cbn [andb]. intros [= <-].
  rewrite be_digits_length, int_from_bytes_be_digits, Z2Nat.id by exact Hlen.
  split; [reflexivity|]. split; [|lia]. apply Z.mod_small. lia.
Qed.

Lemma int_to_bytes_round_trip_witness :
  int_from_bytes (be_digits 2 258) = 258.
Proof.
  apply (int_to_bytes_round_trip 258 2 (be_digits 2 258)). reflexivity.
Defined.

(** ** The rebuilt keys *)

Lemma pow_256 (k : Z) : 0 <= k → 256 ^ k = 2 ^ (8 * k).
Proof. intros Hk. rewrite Z.pow_mul_r by lia. reflexivity. Qed.

(** The minimal big-endian encoding of a non-negative integer. *)
Lemma int_to_bytes_minimal (v : Z) :
  0 <= v →
  ∃ bs, int_to_bytes v ((bit_length v + 7) / 8) = Return bs
    ∧ int_from_bytes bs = v
    ∧ (0 < v → 256 ^ (Z.of_nat (length bs) - 1) <= v)
    ∧ (v = 0 → bs = []).
Proof.
  intros Hv. set (len := (bit_length v + 7) / 8).
  assert (Hcases : v = 0 ∧ bit_length v = 0
                   ∨ 0 < v ∧ bit_length v = Z.log2 v + 1).
  { unfold bit_length. destruct (Z.eqb_spec v 0) as [->|Hnz]; [left; split; reflexivity|].
    right. rewrite Z.abs_eq by lia. split; [lia|reflexivity]. }
  assert (Hbl : 0 <= bit_length v).
  { destruct Hcases as [[_ ->]|[_ ->]]; [lia|]. pose proof (Z.log2_nonneg v). lia. }
  assert (Hlen : 0 <= len) by (apply Z.div_pos; lia).
  assert (Hup : bit_length v <= 8 * len).
  { unfold len. pose proof (Z.mod_pos_bound (bit_length v + 7) 8 ltac:(lia)).
    pose proof (Z.div_mod (bit_length v + 7) 8 ltac:(lia)). lia. }
  assert (Hdown : 8 * len <= bit_length v + 7).
  { unfold len. apply Z.mul_div_le. lia. }
  assert (Hfit : v < 256 ^ len).
  { rewrite pow_256 by exact Hlen.
    destruct Hcases as [[-> _]|[Hpos Hbits]].
    - apply Z.pow_pos_nonneg; lia.
    - destruct (Z.log2_spec v Hpos) as [_ Hlt].
      eapply Z.lt_le_trans; [exact Hlt|]. apply Z.pow_le_mono_r; lia. }
  exists (be_digits (Z.to_nat len) v).
  split; [apply int_to_bytes_fits; lia|].
  split; [rewrite int_from_bytes_be_digits, Z2Nat.id by exact Hlen; apply Z.mod_small; lia|].
  rewrite be_digits_length, Z2Nat.id by exact Hlen. split.
  - intros Hpos. destruct Hcases as [[-> _]|[_ Hbits]]; [lia|].
    destruct (Z.log2_spec v Hpos) as [Hle _].
    pose proof (Z.log2_nonneg v) as Hlog.
    assert (1 <= len) by lia.
    rewrite pow_256 by lia.
    eapply Z.le_trans; [|exact Hle]. apply Z.pow_le_mono_r; lia.
  - intros ->. reflexivity.
Qed.

(** X2: for an RSA key, with its non-negative public numbers, the key is
    always rebuilt, without printing; the exponent and the modulus are
    handed over as big-endian bytes that read back as the numbers and
    carry no leading zero byte. *)
Theorem rsa_key_is_rebuilt `{Libraries} (e n : Z) :
  0 <= e → 0 <= n →
  ∃ e_bytes n_bytes,
    cose_key_of (RSAPublicKey e n) = Py [] (Return (KtyRSA Ps256 e_bytes n_bytes))
    ∧ int_from_bytes e_bytes = e ∧ int_from_bytes n_bytes = n
    ∧ (0 < e → 256 ^ (Z.of_nat (length e_bytes) - 1) <= e)
    ∧ (0 < n → 256 ^ (Z.of_nat (length n_bytes) - 1) <= n).
Proof.
  intros He Hn.
  destruct (int_to_bytes_minimal e He) as (e_bytes & Heb & Hev & Hemin & _).
  destruct (int_to_bytes_minimal n Hn) as (n_bytes & Hnb & Hnv & Hnmin & _).
  exists e_bytes, n_bytes. split; [|repeat split; assumption].
  unfold cose_key_of. rewrite Heb, call_return_bind, Hnb, call_return_bind. reflexivity.
Qed.

Lemma rsa_key_is_rebuilt_witness :
  ∃ e_bytes n_bytes,
    cose_key_of (RSAPublicKey 65537 3233) = Py [] (Return (KtyRSA Ps256 e_bytes n_bytes))
    ∧ int_from_bytes e_bytes = 65537 ∧ int_from_bytes n_bytes = 3233
    ∧ (0 < 65537 → 256 ^ (Z.of_nat (length e_bytes) - 1) <= 65537)
    ∧ (0 < 3233 → 256 ^ (Z.of_nat (length n_bytes) - 1) <= 3233).
Proof. apply (rsa_key_is_rebuilt (H := toy_libraries) 65537 3233); lia. Defined.

(** X3: for an elliptic-curve key, the coordinates are cut to
    [key_size // 8] bytes before the curve is looked up: a coordinate that
    does not fit this width (as one of 521 bits in the 65 bytes of a
    521-bit curve) makes [verify_ehc] raise [OverflowError], whether the
    curve is supported or not. *)
Theorem wide_coordinate_overflows `{Libraries} (now : Z) (msg : CoseMessage)
    (certs : gmap bytes Certificate) (kid : bytes) (cert : Certificate)
    (name : string) (key_size x y : Z) :
  result (given_kid_of msg) = Return (VBytes kid) →
  certs !! kid = Some cert →
  public_key cert = EllipticCurvePublicKey name key_size x y →
  0 <= key_size →
  256 ^ (key_size / 8) <= x ∨ (0 <= x ∧ 256 ^ (key_size / 8) <= y) →
  result (cose_key_of (public_key cert)) = Raise OverflowError
  ∧ result (verify_ehc now msg certs) = Raise OverflowError.
Proof.
  intros Hkid Hcert Hpk Hsize Hwide.
  assert (Hlen : 0 <= key_size / 8) by (apply Z.div_pos; lia).
  assert (Hpow : 0 < 256 ^ (key_size / 8)) by (apply Z.pow_pos_nonneg; lia).
  assert (Hkey : result (cose_key_of (public_key cert)) = Raise OverflowError).
  { rewrite Hpk. unfold cose_key_of. py_step. unfold int_to_bytes.
    destruct (Z.ltb_spec (key_size / 8) 0) as [|_]; [lia|].
    destruct Hwide as [Hx|[Hx Hy]].
    - destruct (Z.leb_spec 0 x); [|reflexivity].
      destruct (Z.ltb_spec x (256 ^ (key_size / 8))); [lia|reflexivity].
    - destruct (Z.leb_spec 0 x); [|reflexivity].
      destruct (Z.ltb_spec x (256 ^ (key_size / 8))); [|reflexivity].
      cbn [andb]. py_step.
      destruct (Z.leb_spec 0 y); [|reflexivity].
      destruct (Z.ltb_spec y (256 ^ (key_size / 8))); [lia|reflexivity]. }
  split; [exact Hkey|].
  rewrite (verify_ehc_resolved now msg certs kid cert Hkid Hcert), Hkey. reflexivity.
Qed.

Lemma wide_coordinate_overflows_witness :
  CURVES !! lower (strip_ignored "secp521r1") = Some cose_P521
  ∧ result (verify_ehc 150 msg_p521 p521_store) = Raise OverflowError.
Proof.
  split; [reflexivity|].
  apply (wide_coordinate_overflows 150 msg_p521 p521_store (b "secp521r") p521_certificate
           "secp521r1" 521 (2 ^ 520) 1); [reflexivity|reflexivity|reflexivity|lia|].
  left. vm_compute. discriminate.
Defined.

(** ** What [verify_ehc] prints and returns *)

Section VerifierLines.
Context `{Libraries}.

Lemma given_kid_of_printed (msg : CoseMessage) : printed (given_kid_of msg) = [].
Proof.
  unfold given_kid_of. destruct (truthy _); [reflexivity|].
  destruct (uhdr msg !! KID); reflexivity.
Qed.

Lemma given_kid_of_returns (msg : CoseMessage) (v : value) :
  result (given_kid_of msg) = Return v → given_kid_of msg = mret v.
Proof.
  intros Hres. rewrite (py_eta (given_kid_of msg)), given_kid_of_printed, Hres. reflexivity.
Qed.

(** [verify_ehc] from the lookup of the certificate on. *)
Lemma verify_ehc_from_lookup (now : Z) (msg : CoseMessage)
    (certs : gmap bytes Certificate) (kid : bytes) :
  result (given_kid_of msg) = Return (VBytes kid) →
  verify_ehc now msg certs =
    _ ← print (LKeyID kid);
    cert ← get_or_raise (certs !! kid) (KeyError (KeyIdNotFound kid));
    let pk := public_key cert in
    _ ← print (LKeyType (strip_underscores (type_name_of pk)));
    _ ← print (LCertSerial (serial_number cert));
    _ ← print (LCertIssuer (issuer cert));
    _ ← print (LCertSubject (subject cert));
    _ ← print (LCertVersion (version cert));
    _ ← print (LCertValidIn (not_valid_before cert) (not_valid_after cert));
    let cert_expired := cert_expired_of now cert in
    _ ← print (LCertExpired cert_expired);
    _ ← print (LSignatureAlgo (signature_algorithm_oid cert));
    key ← cose_key_of pk;
    valid ← call (verify_signature msg key);
    _ ← print (LSignatureValid valid);
    mret (valid && negb cert_expired).
Proof.
  intros Hkid. unfold verify_ehc.
  rewrite (given_kid_of_returns msg (VBytes kid) Hkid), mret_bind, mret_bind.
  reflexivity.
Qed.

End VerifierLines.

(** X4: when the effective key id is not in the store, [verify_ehc] prints
    the key id, nothing else, and raises the [KeyError] that names it: no
    certificate is consulted and no signature is checked. *)
Theorem unknown_key_id_raises `{Libraries} (now : Z) (msg : CoseMessage)
    (certs : gmap bytes Certificate) (kid : bytes) :
  result (given_kid_of msg) = Return (VBytes kid) →
  certs !! kid = None →
  verify_ehc now msg certs = Py [LKeyID kid] (Raise (KeyError (KeyIdNotFound kid))).
Proof.
  intros Hkid Hnone. rewrite (verify_ehc_from_lookup now msg certs kid Hkid), Hnone.
  reflexivity.
Qed.

Lemma unknown_key_id_raises_witness :
  verify_ehc 150 msg_nist ∅
    = Py [LKeyID (b "secp256r")] (Raise (KeyError (KeyIdNotFound (b "secp256r")))).
Proof. apply (unknown_key_id_raises 150 msg_nist ∅ (b "secp256r")); reflexivity. Defined.

(** X5: as long as the validity window of the certificate is not inverted,
    the clock has no influence on verification: whatever the signature
    check does, the run of [verify_ehc], lines and outcome, is the same at
    any two readings of the clock; and [verify_ehc] ends as the check
    ends, with its verdict or with its exception, also for a certificate
    that has expired or is not yet valid. *)
Theorem verification_ignores_the_clock `{Libraries} (now now' : Z) (msg : CoseMessage)
    (certs : gmap bytes Certificate) (kid : bytes) (cert : Certificate) (key : CoseKey) :
  result (given_kid_of msg) = Return (VBytes kid) →
  certs !! kid = Some cert →
  result (cose_key_of (public_key cert)) = Return key →
  not_valid_before cert <= not_valid_after cert →
  verify_ehc now msg certs = verify_ehc now' msg certs
  ∧ result (verify_ehc now msg certs) = verify_signature msg key.
Proof.
  intros Hkid Hcert Hkey Hwindow.
  assert (Hflag : ∀ t, cert_expired_of t cert = false).
  { intros t. unfold cert_expired_of.
    destruct (Z.ltb_spec t (not_valid_before cert)); [|reflexivity].
    destruct (Z.gtb_spec t (not_valid_after cert)); [lia|reflexivity]. }
  split.
  - rewrite !(verify_ehc_from_lookup _ msg certs kid Hkid), Hcert.
    cbn [get_or_raise]. rewrite !mret_bind. cbv zeta. rewrite !Hflag. reflexivity.
  - rewrite (verify_ehc_resolved now msg certs kid cert Hkid Hcert), Hkey, Hflag.
    destruct (verify_signature msg key) as [valid|e]; [|reflexivity].
    rewrite andb_true_r. reflexivity.
Qed.

Lemma verification_ignores_the_clock_witness :
  not_valid_after (toy_certificate (b "secp256r1")) < 999999
  ∧ verify_ehc 999999 msg_nist toy_store = verify_ehc 150 msg_nist toy_store
  ∧ result (verify_ehc 999999 msg_nist toy_store) = verify_signature msg_nist toy_key.
Proof.
  split; [reflexivity|].
  refine (verification_ignores_the_clock 999999 150 msg_nist toy_store (b "secp256r")
            (toy_certificate (b "secp256r1")) toy_key eq_refl eq_refl eq_refl _).
  discriminate.
Defined.

(** X6: once the key id resolves to a certificate, [verify_ehc] prints the
    key id and the certificate's key type, serial number, issuer, subject,
    version, validity window, expiry flag and signature algorithm, in this
    order, before it turns to the key: these lines are printed whatever the
    outcome, also when the key type or the curve is not supported. *)
Theorem certificate_metadata_is_printed `{Libraries} (now : Z) (msg : CoseMessage)
    (certs : gmap bytes Certificate) (kid : bytes) (cert : Certificate) :
  result (given_kid_of msg) = Return (VBytes kid) →
  certs !! kid = Some cert →
  ∃ more, printed (verify_ehc now msg certs) = certificate_lines now kid cert ++ more.
Proof.
  intros Hkid Hcert. rewrite (verify_ehc_from_lookup now msg certs kid Hkid), Hcert.
  cbn [get_or_raise]. cbv zeta. py_step.
  destruct (result (cose_key_of (public_key cert))) as [key|e]; py_step.
  - destruct (verify_signature msg key) as [valid|e]; py_step.
    + exists (printed (cose_key_of (public_key cert)) ++ [LSignatureValid valid]).
      reflexivity.
    + exists (printed (cose_key_of (public_key cert)) ++ []). reflexivity.
  - exists (printed (cose_key_of (public_key cert))). reflexivity.
Qed.

Lemma certificate_metadata_is_printed_witness :
  ∃ more, printed (verify_ehc 150 msg_ed25519 toy_store)
            = certificate_lines 150 (b "ed25519.") ed25519_certificate ++ more.
Proof.
  apply (certificate_metadata_is_printed 150 msg_ed25519 toy_store); reflexivity.
Defined.

(** ** The envelope prefix *)

(** X7: the [HC1] prefix is optional: a text that does not itself start
    with [HC1] is decoded in the same way with [HC1:] in front of it, with
    a bare [HC1] in front of it (unless it starts with a colon, which would
    be stripped too), and as it is. *)
Theorem hc1_prefix_is_optional `{Libraries} (text : string) :
  String.prefix "HC1" text = false →
  decode_ehc (String.append "HC1:" text) = decode_ehc text
  ∧ (String.prefix ":" text = false →
     decode_ehc (String.append "HC1" text) = decode_ehc text).
Proof.
  intros Hplain.
  rewrite (decode_ehc_stripped text text (stripped_none text Hplain)).
  split.
  - apply decode_ehc_stripped. apply stripped_colon.
  - intros Hcolon. apply decode_ehc_stripped. apply stripped_plain. exact Hcolon.
Qed.

Lemma hc1_prefix_is_optional_witness :
  decode_ehc (String.append "HC1:" "LQEVPCSF6X*6*.C VD") = decode_ehc "LQEVPCSF6X*6*.C VD".
Proof.
  exact (proj1 (hc1_prefix_is_optional (H := toy_libraries) "LQEVPCSF6X*6*.C VD" eq_refl)).
Defined.

(** ** What the loaders admit *)

Lemma foldl_insert_list_to_map {K A} `{Countable K} (l : list (K * A)) (m : gmap K A) :
  foldl (λ m entry, <[entry.1 := entry.2]> m) m l = list_to_map (reverse l) ∪ m.
Proof.
  revert m. induction l as [|[k a] l IH]; intros m.
  - cbn [foldl]. rewrite reverse_nil. cbn [list_to_map foldr].
    rewrite (left_id_L ∅ (∪)). reflexivity.
  - cbn [foldl]. rewrite IH, reverse_cons, list_to_map_app. cbn [list_to_map foldr fst snd].
    rewrite <- (assoc_L (∪)), <- insert_union_l, (left_id_L ∅ (∪)). reflexivity.
Qed.

Section Admission.
Context `{Libraries}.

Lemma cbor_loop_admits (items : list value) (admitted : list (bytes * Certificate))
    (certs : gmap bytes Certificate) :
  cbor_items_read items admitted →
  for_each items load_ehc_certs_cbor_item certs
    = Py [] (Return (foldl (λ m entry, <[entry.1 := entry.2]> m) certs admitted)).
Proof.
  intros Hread. revert certs.
  induction Hread as [|item [key_id cert] items admitted [Hparse Hmatch] _ IH]; intros certs.
  - reflexivity.
  - cbn [fst snd] in Hparse, Hmatch.
    rewrite for_each_cons, (cbor_item_parses_body certs item key_id cert Hparse).
    rewrite (check_and_insert_match certs key_id cert Hmatch), mret_bind. apply IH.
Qed.

Lemma json_loop_admits (entries : list value) (warnings : list line)
    (admitted : list (bytes * Certificate)) (certs : gmap bytes Certificate) :
  json_entries_read entries warnings admitted →
  for_each entries load_ehc_certs_signed_json_item certs
    = Py warnings (Return (foldl (λ m entry, <[entry.1 := entry.2]> m) certs admitted)).
Proof.
  intros Hread. revert certs.
  induction Hread as [|entry entries cert_type country key_id warnings admitted Hskip _ IH
                      |entry entries key_id cert warnings admitted Hparse Hmatch _ IH];
    intros certs.
  - reflexivity.
  - rewrite for_each_cons, (json_entry_skipped_body certs entry _ _ _ Hskip).
    unfold mbind, py_bind. rewrite (IH certs). reflexivity.
  - rewrite for_each_cons, (json_entry_parses_body certs entry key_id cert Hparse).
    rewrite (check_and_insert_match certs key_id cert Hmatch), mret_bind. apply IH.
Qed.

End Admission.

(** X8: a binary list all of whose elements parse and declare the key id
    of their certificate is loaded without an exception and without a
    line printed, and the store holds every element under its key id, a
    later element replacing an earlier one with the same key id; the empty
    list gives the empty store. *)
Theorem binary_list_is_admitted `{Libraries} (cbor_data : bytes) (items : list value)
    (admitted : list (bytes * Certificate)) :
  cbor_list_reads cbor_data items →
  cbor_items_read items admitted →
  load_ehc_certs_cbor cbor_data = Py [] (Return (list_to_map (reverse admitted)))
  ∧ (∀ key_id, key_id ∈ admitted.*1
               ↔ is_Some ((list_to_map (reverse admitted) : gmap bytes Certificate) !! key_id))
  ∧ (admitted = [] → load_ehc_certs_cbor cbor_data = Py [] (Return ∅)).
Proof.
  intros Hreads Hitems.
  assert (Hload : load_ehc_certs_cbor cbor_data
            = Py [] (Return (list_to_map (reverse admitted)))).
  { rewrite (cbor_list_reads_loop cbor_data items Hreads).
    rewrite (cbor_loop_admits items admitted ∅ Hitems), foldl_insert_list_to_map.
    rewrite (right_id_L ∅ (∪)). reflexivity. }
  split; [exact Hload|]. split.
  - intros key_id. rewrite <- elem_of_dom, dom_list_to_map_L, elem_of_list_to_set.
    rewrite fmap_reverse, elem_of_reverse. reflexivity.
  - intros ->. exact Hload.
Qed.

Lemma binary_list_is_admitted_witness :
  load_ehc_certs_cbor (b "secp256r1
secp384r1")
    = Py [] (Return (list_to_map (reverse
         [ (b "secp256r", toy_certificate (b "secp256r1"));
           (b "secp384r", toy_certificate (b "secp384r1")) ]))).
Proof.
  refine (proj1 (binary_list_is_admitted (H := toy_libraries) _
            [toy_item (b "secp256r1"); toy_item (b "secp384r1")] _ _ _)).
  - eexists _, _. split; [reflexivity|]. split; reflexivity.
  - repeat constructor; cbn [fst snd].
    + eexists. split; reflexivity.
    + eexists. split; reflexivity.
Defined.

(** X9: a signed-JSON list whose signature is accepted (or not checked)
    and whose DSC entries all parse and declare the key id of their
    certificate is loaded without an exception; one warning is printed
    for every entry of another type, in the order of the list, and the
    store holds exactly the DSC entries, a later one replacing an earlier
    one with the same key id. *)
Theorem signed_json_list_is_admitted `{Libraries} (data sign body_json : bytes)
    (entries : list value) (pubkey : option PublicKey)
    (warnings : list line) (admitted : list (bytes * Certificate)) :
  json_list_reads data sign body_json entries →
  list_signature_accepted pubkey sign body_json →
  json_entries_read entries warnings admitted →
  load_ehc_certs_signed_json data pubkey
    = Py warnings (Return (list_to_map (reverse admitted)))
  ∧ (∀ key_id, key_id ∈ admitted.*1
               ↔ is_Some ((list_to_map (reverse admitted) : gmap bytes Certificate) !! key_id)).
Proof.
  intros Hreads Hsign Hentries. split.
  - rewrite (json_list_reads_loop data sign body_json entries pubkey Hreads Hsign).
    rewrite (json_loop_admits entries warnings admitted ∅ Hentries), foldl_insert_list_to_map.
    rewrite (right_id_L ∅ (∪)). reflexivity.
  - intros key_id. rewrite <- elem_of_dom, dom_list_to_map_L, elem_of_list_to_set.
    rewrite fmap_reverse, elem_of_reverse. reflexivity.
Qed.

Lemma signed_json_list_is_admitted_witness :
  load_ehc_certs_signed_json (b "abab
#csca
secp256r1") (Some (RSAPublicKey 3 5))
    = Py [WarnUnknownCertificateType (VStr "CSCA") (VStr "AT") (b "#csca")]
         (Return (list_to_map (reverse [(b "secp256r", toy_certificate (b "secp256r1"))]))).
Proof.
  refine (proj1 (signed_json_list_is_admitted (H := toy_libraries) _ (b "abab")
            (b "#csca
secp256r1") [toy_item (b "#csca"); toy_item (b "secp256r1")] _ _ _ _ _ _)).
  - eexists _, _, _. repeat split; reflexivity.
  - exists tt. reflexivity.
  - apply json_entries_read_skip.
    + split; [eexists; split; reflexivity|].
      split; [reflexivity|]. split; [reflexivity|discriminate].
    + apply json_entries_read_admit; [|reflexivity|apply json_entries_read_nil].
      split; [eexists; split; reflexivity|].
      split; [eexists; reflexivity|]. split; [reflexivity|].
      eexists _, _. repeat split; reflexivity.
Defined.

(** Without a public key the signature of the list is never put to the
    verifier. *)
Lemma no_public_key_no_check (L : Libraries)
    (verify : PublicKey → bytes → bytes → outcome unit) (data : bytes) :
  load_ehc_certs_signed_json (H := with_ecdsa_verify L verify) data None
    = load_ehc_certs_signed_json (H := L) data None.
Proof. reflexivity. Qed.

(** ** Downloading *)

Lemma raise_for_status_ok (response : Response) :
  ¬ (400 <= status_code response < 600) → raise_for_status response = mret tt.
Proof.
  intros Hok. unfold raise_for_status.
  destruct (Z.leb_spec 400 (status_code response)); [|reflexivity].
  destruct (Z.ltb_spec (status_code response) 600); [lia|reflexivity].
Qed.

(** X10: when the German list is fetched but the public key to check it
    is not found (the key URL answers 404), a warning is printed and the
    list is loaded without any check of its signature: the outcome is the
    same whatever the signature verifier would have answered. *)
Theorem missing_public_key_skips_check (L : Libraries)
    (certs : gmap bytes Certificate) (list_response key_response : Response) :
  @requests_get L CERTS_URL_DE = Return list_response →
  ¬ (400 <= status_code list_response < 600) →
  @requests_get L PUBKEY_URL_DE = Return key_response →
  status_code key_response = 404 →
  download_ehc_certs_source (H := L) certs "DE"
    = (_ ← print WarnPubkeyNotFound;
       certs_de ← load_ehc_certs_signed_json (H := L) (content list_response) None;
       mret (certs_de ∪ certs))
  ∧ ∀ verify, download_ehc_certs_source (H := with_ecdsa_verify L verify) certs "DE"
              = download_ehc_certs_source (H := L) certs "DE".
Proof.
  intros Hlist Hok Hkey H404.
  assert (Hrun : ∀ L', @requests_get L' = @requests_get L →
            download_ehc_certs_source (H := L') certs "DE"
              = (_ ← print WarnPubkeyNotFound;
                 certs_de ← load_ehc_certs_signed_json (H := L') (content list_response) None;
                 mret (certs_de ∪ certs))).
  { intros L' Hget. unfold download_ehc_certs_source.
    rewrite bool_decide_eq_false_2 by discriminate.
    rewrite bool_decide_eq_true_2 by reflexivity.
    rewrite Hget, Hlist, call_return_bind, (raise_for_status_ok _ Hok), mret_bind.
    rewrite Hkey, call_return_bind, H404. cbn [Z.eqb Pos.eqb].
    rewrite bind_assoc. apply bind_ext. intros []. rewrite mret_bind. reflexivity. }
  split; [exact (Hrun L eq_refl)|].
  intros verify. rewrite (Hrun L eq_refl), (Hrun (with_ecdsa_verify L verify) eq_refl).
  rewrite no_public_key_no_check. reflexivity.
Qed.

Lemma missing_public_key_skips_check_witness :
  download_ehc_certs_source (H := toy_libraries_no_key) ∅ "DE"
    = (_ ← print WarnPubkeyNotFound;
       certs_de ← load_ehc_certs_signed_json (H := toy_libraries_no_key)
                    (b "abcd
secp256r1") None;
       mret (certs_de ∪ ∅)).
Proof.
  refine (proj1 (missing_public_key_skips_check toy_libraries_no_key ∅
            {| status_code := 200; content := b "abcd
secp256r1" |} {| status_code := 404; content := [] |} eq_refl _ eq_refl eq_refl)).
  cbn [status_code]. lia.
Defined.

Section DownloadFacts.
Context `{Libraries}.

Lemma key_ids_match_union (loaded certs : gmap bytes Certificate) :
  key_ids_match loaded → key_ids_match certs → key_ids_match (loaded ∪ certs).
Proof.
  intros Hloaded Hcerts key_id cert Hlookup.
  apply lookup_union_Some_raw in Hlookup as [Hl|[_ Hr]].
  - exact (Hloaded key_id cert Hl).
  - exact (Hcerts key_id cert Hr).
Qed.

Lemma download_ehc_certs_source_keeps (certs : gmap bytes Certificate)
    (source : string) (certs' : gmap bytes Certificate) :
  key_ids_match certs →
  result (download_ehc_certs_source certs source) = Return certs' →
  key_ids_match certs'.
Proof.
  intros Hcerts Hres. unfold download_ehc_certs_source in Hres.
  destruct (bool_decide (source = "AT")); [|destruct (bool_decide (source = "DE"))].
  - do 6 (apply result_bind_inv in Hres as (? & _ & Hres)).
    apply result_bind_inv in Hres as (certs_at & Hload & Hres). injection Hres as <-.
    apply key_ids_match_union; [|exact Hcerts].
    exact (load_ehc_certs_cbor_key_ids _ certs_at Hload).
  - do 4 (apply result_bind_inv in Hres as (? & _ & Hres)).
    apply result_bind_inv in Hres as (certs_de & Hload & Hres). injection Hres as <-.
    apply key_ids_match_union; [|exact Hcerts].
    exact (load_ehc_certs_signed_json_key_ids _ _ certs_de Hload).
  - discriminate.
Qed.

Lemma download_loop_domain (sources : list string) (certs final : gmap bytes Certificate)
    (key_id : bytes) :
  result (for_each sources download_ehc_certs_source certs) = Return final →
  is_Some (final !! key_id)
  ↔ is_Some (certs !! key_id)
    ∨ ∃ source loaded, source ∈ sources
        ∧ result (download_ehc_certs [source]) = Return loaded
        ∧ is_Some (loaded !! key_id).
Proof.
  revert certs. induction sources as [|source sources IH]; intros certs Hres.
  - injection Hres as <-. split; [intros Hk; left; exact Hk|].
    intros [Hk|(source & loaded & Hin & _)]; [exact Hk|]. inversion Hin.
  - rewrite for_each_cons in Hres.
    apply result_bind_inv in Hres as (certs' & Hturn & Hrest).
    apply download_turn_result in Hturn as (loaded & Hloaded & ->).
    rewrite (IH _ Hrest). rewrite lookup_union_is_Some. split.
    + intros [[Hl|Hc]|(source' & loaded' & Hin & Hrest')].
      * right. exists source, loaded. split; [left|]. split; assumption.
      * left. exact Hc.
      * right. exists source', loaded'. split; [right; exact Hin|exact Hrest'].
    + intros [Hc|(source' & loaded' & Hin & Hloaded' & Hk)].
      * left. right. exact Hc.
      * apply elem_of_cons in Hin as [->|Hin].
        -- rewrite Hloaded in Hloaded'. injection Hloaded' as <-. left. left. exact Hk.
        -- right. exists source', loaded'. repeat split; assumption.
Qed.

End DownloadFacts.

(** X11: a source name other than [AT] and [DE] (the names are matched as
    they are, so also [at]) makes [download_ehc_certs] raise the
    [ValueError] of the unknown source when its turn comes: what the
    sources before it had loaded is not returned. *)
Theorem unknown_source_aborts `{Libraries} (before after : list string) (source : string)
    (earlier : gmap bytes Certificate) :
  source ≠ "AT" → source ≠ "DE" →
  result (download_ehc_certs before) = Return earlier →
  result (download_ehc_certs (before ++ source :: after))
    = Raise (ValueError (UnknownTrustListSource source)).
Proof.
  intros Hat Hde Hearlier. unfold download_ehc_certs in *.
  rewrite for_each_app, result_bind, Hearlier, for_each_cons, result_bind.
  unfold download_ehc_certs_source.
  rewrite !bool_decide_eq_false_2 by assumption. reflexivity.
Qed.

Lemma unknown_source_aborts_witness :
  result (download_ehc_certs (["AT"] ++ "at" :: ["DE"]))
    = Raise (ValueError (UnknownTrustListSource "at")).
Proof.
  refine (unknown_source_aborts (H := toy_libraries) ["AT"] ["DE"] "at" toy_store_at
            _ _ eq_refl); discriminate.
Defined.

(** X12: the store that [download_ehc_certs] returns keeps the invariant
    of the loaders, every certificate filed under the first eight bytes of
    its fingerprint, and its key ids are exactly the key ids of the lists
    of the sources: none is lost in the merge and none is added. *)
Theorem merged_store_key_ids `{Libraries} (sources : list string)
    (final : gmap bytes Certificate) :
  result (download_ehc_certs sources) = Return final →
  (∀ key_id cert, final !! key_id = Some cert → key_id = take 8 (SHA256 (der cert)))
  ∧ (∀ key_id, is_Some (final !! key_id)
       ↔ ∃ source loaded, source ∈ sources
           ∧ result (download_ehc_certs [source]) = Return loaded
           ∧ is_Some (loaded !! key_id)).
Proof.
  intros Hfinal. split.
  - exact (for_each_invariant key_ids_match _ sources download_ehc_certs_source_keeps
             ∅ final key_ids_match_empty Hfinal).
  - intros key_id. rewrite (download_loop_domain sources ∅ final key_id Hfinal).
    rewrite lookup_empty. split.
    + intros [[? [=]]|Hsource]. exact Hsource.
    + intros Hsource. right. exact Hsource.
Qed.

Lemma merged_store_key_ids_witness :
  (∀ key_id cert, toy_store_merged !! key_id = Some cert →
     key_id = take 8 (SHA256 (der cert)))
  ∧ (∀ key_id, is_Some (toy_store_merged !! key_id)
       ↔ ∃ source loaded, source ∈ ["DE"; "AT"]
           ∧ result (download_ehc_certs [source]) = Return loaded
           ∧ is_Some (loaded !! key_id)).
Proof.
  exact (merged_store_key_ids (H := toy_libraries) ["DE"; "AT"] toy_store_merged eq_refl).
Defined.

(** ** Batches *)

Section Batches.
Context `{Libraries}.

Lemma main_loop_cons_return (now : Z) (certs : option (gmap bytes Certificate))
    (ehc_code : string) (rest : list string) :
  result (main_body now certs tt ehc_code) = Return tt →
  main_loop now certs (ehc_code :: rest)
    = Py (printed (main_body now certs tt ehc_code) ++ printed (main_loop now certs rest))
         (result (main_loop now certs rest)).
Proof.
  intros Hturn. unfold main_loop. rewrite for_each_cons.
  exact (bind_return _ _ tt Hturn).
Qed.

End Batches.

(** X13: the inputs of a batch are processed in their order and the lines
    of the turns follow each other; when every turn returns, the loop
    returns; the first turn that raises ends the loop with its exception,
    after the lines of the turns before it and its own, and no later input
    is looked at. *)
Theorem batch_stops_at_first_failure `{Libraries} (now : Z)
    (certs : option (gmap bytes Certificate)) (done : list string) :
  Forall (λ ehc_code, result (main_body now certs tt ehc_code) = Return tt) done →
  main_loop now certs done
    = Py (concat ((λ ehc_code, printed (main_body now certs tt ehc_code)) <$> done))
         (Return tt)
  ∧ ∀ ehc_code rest e,
      result (main_body now certs tt ehc_code) = Raise e →
      main_loop now certs (done ++ ehc_code :: rest)
        = Py (concat ((λ ehc_code, printed (main_body now certs tt ehc_code)) <$> done)
                ++ printed (main_body now certs tt ehc_code))
             (Raise e).
Proof.
  intros Hdone. induction Hdone as [|first done Hfirst _ [IHall IHfail]].
  - split; [reflexivity|]. intros ehc_code rest e Hturn.
    cbn [app fmap list_fmap concat]. exact (main_loop_raises now certs ehc_code rest e Hturn).
  - split.
    + rewrite (main_loop_cons_return now certs first done Hfirst), IHall. reflexivity.
    + intros ehc_code rest e Hturn. cbn [app].
      rewrite (main_loop_cons_return now certs first _ Hfirst).
      rewrite (IHfail ehc_code rest e Hturn). cbn [printed result fmap list_fmap concat].
      rewrite app_assoc. reflexivity.
Qed.

Lemma batch_stops_at_first_failure_witness :
  main_loop 150 (Some toy_store)
      (["HC1:LQEVPCSF6X*6*.C VD"] ++ "HC1:2%E7QD54E -D*.C VD" :: ["HC1:LQEVPCSF6X*6*.C VD"])
    = Py (concat ((λ ehc_code, printed (main_body 150 (Some toy_store) tt ehc_code))
                    <$> ["HC1:LQEVPCSF6X*6*.C VD"])
            ++ printed (main_body 150 (Some toy_store) tt "HC1:2%E7QD54E -D*.C VD"))
         (Raise (KeyError (KeyIdNotFound (b "unknown.")))).
Proof.
  refine (proj2 (batch_stops_at_first_failure (H := toy_libraries) 150 (Some toy_store)
            ["HC1:LQEVPCSF6X*6*.C VD"] _) _ _ _ _).
  - apply Forall_cons. split; [vm_compute; reflexivity|apply Forall_nil_2].
  - vm_compute. reflexivity.
Defined.

(** ** The flat claims *)

Lemma CLAIM_NAMES_lookup (z : Z) (name : string) :
  CLAIM_NAMES !! z = Some name →
  (z = 1 ∧ name = "Issuer") ∨ (z = 6 ∧ name = "Issued At")
  ∨ (z = 4 ∧ name = "Expires At") ∨ (z = -260 ∧ name = "Health Claims").
Proof.
  unfold CLAIM_NAMES. rewrite !lookup_insert_Some, lookup_singleton_Some.
  intros [[<- <-]|[_ [[<- <-]|[_ [[<- <-]|[_ [<- <-]]]]]]]; auto.
Qed.

Section FlatClaims.
Context `{Libraries}.

Lemma print_claims_dict (now : Z) (claims : list (key * value)) :
  print_claims now (VDict claims) =
    _ ← for_each claims print_claim tt;
    match default VNone (dict_get claims (KInt 4)) with
    | VNone => mret tt
    | _ =>
        expires_at ← call (epoch_datetime (default VNone (dict_get claims (KInt 4))));
        print (LIsExpired (now >=? expires_at))
    end.
Proof.
  unfold print_claims. cbn [items get]. rewrite call_return_bind.
  apply bind_ext. intros _. rewrite call_return_bind. reflexivity.
Qed.

(** The lines of the loop over the claims, turn by turn. *)
Lemma flat_claims_turns (claims : list (key * value)) :
  result (for_each claims print_claim tt) = Return tt →
  Forall (λ item, result (print_claim tt item) = Return tt) claims
  ∧ printed (for_each claims print_claim tt)
    = concat ((λ item, printed (print_claim tt item)) <$> claims).
Proof.
  induction claims as [|item claims IH]; intros Hres.
  - split; [apply Forall_nil_2|reflexivity].
  - rewrite for_each_cons in Hres |- *.
    apply result_bind_inv in Hres as ([] & Hturn & Hrest).
    destruct (IH Hrest) as [Hall Hprinted].
    split; [apply Forall_cons; split; assumption|].
    rewrite (bind_return _ _ tt Hturn). cbn [printed fmap list_fmap concat].
    rewrite Hprinted. reflexivity.
Qed.

Lemma print_claims_flat_part (now : Z) (claims : list (key * value)) :
  result (print_claims now (VDict claims)) = Return tt →
  result (for_each claims print_claim tt) = Return tt
  ∧ ∃ tail, printed (print_claims now (VDict claims))
              = printed (for_each claims print_claim tt) ++ tail.
Proof.
  rewrite print_claims_dict. intros Hres.
  apply result_bind_inv in Hres as ([] & Hloop & Htail).
  split; [exact Hloop|]. rewrite (bind_return _ _ tt Hloop). cbn [printed].
  eexists. reflexivity.
Qed.

End FlatClaims.

(** X14: when the flat claims are printed to the end, no claim is
    dropped: a claim whose code is not one of the four known ones, a text
    key included, is printed with its code and its value as it is; and the
    health-claims entry -260 is never printed as a flat claim. *)
Theorem unknown_claims_are_kept `{Libraries} (now : Z) (claims : list (key * value)) :
  (result (print_claims now (VDict claims)) = Return tt →
   ∀ k v, (k, v) ∈ claims →
     (∀ z, k = KInt z → CLAIM_NAMES !! z = None) →
     LClaimUnknown k (ShownValue v) ∈ printed (print_claims now (VDict claims)))
  ∧ Forall (λ l, ∀ shown, l ≠ LClaim "Health Claims" shown
                          ∧ l ≠ LClaimUnknown (KInt (-260)) shown)
      (printed (for_each claims print_claim tt)).
Proof.
  split.
  - intros Hres k v Hin Hunknown.
    destruct (print_claims_flat_part now claims Hres) as [Hloop [tail ->]].
    destruct (flat_claims_turns claims Hloop) as [_ ->].
    apply elem_of_app. left. apply list_elem_of_In, in_concat.
    exists (printed (print_claim tt (k, v))).
    split; [apply list_elem_of_In, list_elem_of_fmap; eauto|].
    apply list_elem_of_In. unfold print_claim.
    assert (Hne : k ≠ KInt (-260)).
    { intros ->. specialize (Hunknown (-260) eq_refl). discriminate. }
    rewrite bool_decide_eq_true_2 by exact Hne.
    destruct k as [z|s]; [rewrite (Hunknown z eq_refl)|]; cbn [print printed];
      apply list_elem_of_singleton; reflexivity.
  - induction claims as [|[k v] claims IH]; [apply Forall_nil_2|].
    rewrite for_each_cons, printed_bind.
    assert (Hturn : Forall (λ l, ∀ shown, l ≠ LClaim "Health Claims" shown
                                          ∧ l ≠ LClaimUnknown (KInt (-260)) shown)
                      (printed (print_claim tt (k, v)))).
    { unfold print_claim. case_bool_decide as Hk; [|apply Forall_nil_2].
      destruct k as [z|s].
      - destruct (CLAIM_NAMES !! z) as [name|] eqn:Hname.
        + assert (name ≠ "Health Claims").
          { apply CLAIM_NAMES_lookup in Hname as [[_ ->]|[[_ ->]|[[_ ->]|[-> _]]]];
              try discriminate. contradiction. }
          case_bool_decide.
          * rewrite printed_bind. destruct (epoch_datetime v); cbn [call result printed print];
              [|apply Forall_nil_2].
            apply Forall_singleton. intros shown. split; [congruence|discriminate].
          * apply Forall_singleton. intros shown. split; [congruence|discriminate].
        + apply Forall_singleton. intros shown. split; [discriminate|congruence].
      - apply Forall_singleton. intros shown. split; discriminate. }
    destruct (result (print_claim tt (k, v))) as [[]|e]; [|exact Hturn].
    apply Forall_app. split; [exact Hturn|exact IH].
Qed.

Lemma unknown_claims_are_kept_witness :
  LClaimUnknown (KInt 99) (ShownValue (VStr "x"))
    ∈ printed (print_claims 150 (VDict [(KInt 1, VStr "AT"); (KInt 99, VStr "x")])).
Proof.
  refine (proj1 (unknown_claims_are_kept (H := toy_libraries) 150
            [(KInt 1, VStr "AT"); (KInt 99, VStr "x")]) eq_refl
            (KInt 99) (VStr "x") _ _).
  - apply list_elem_of_In. right. left. reflexivity.
  - intros z [= <-]. reflexivity.
Defined.

Lemma epoch_datetime_inv (v : value) (seconds : Z) :
  epoch_datetime v = Return seconds →
  v = VInt seconds ∧ -62135596800 <= seconds <= 253402300799.
Proof.
  destruct v as [|z| | | |]; try discriminate. cbn [epoch_datetime].
  destruct (Z.leb_spec (-62135596800) z); [|discriminate].
  destruct (Z.leb_spec z 253402300799); [|discriminate].
  intros [= <-]. split; [reflexivity|lia].
Qed.

(** X15: an issued-at (6) or expires-at (4) claim that is [None], a byte
    string, a text, a list or a map, or an integer number of seconds that
    does not fall between [datetime.min] and [datetime.max], makes the
    printing of the flat claims raise: the turn ends there, before
    verification and before the health-claims document. *)
Theorem timestamps_of_other_kinds_raise `{Libraries} (now : Z)
    (claims : list (key * value)) (z : Z) (v : value) :
  (KInt z, v) ∈ claims → z = 4 ∨ z = 6 →
  match v with
  | VInt seconds => ¬ (-62135596800 <= seconds <= 253402300799)
  | VNone | VBytes _ | VStr _ | VList _ | VDict _ => True
  end →
  ∃ e, result (print_claims now (VDict claims)) = Raise e.
Proof.
  intros Hin Hz Hkind.
  destruct (result (print_claims now (VDict claims))) as [[]|e] eqn:Hres; [|eauto].
  exfalso.
  destruct (print_claims_flat_part now claims Hres) as [Hloop _].
  destruct (flat_claims_turns claims Hloop) as [Hall _].
  rewrite Forall_forall in Hall. specialize (Hall (KInt z, v) Hin).
  unfold print_claim in Hall.
  assert (Hname : ∃ name, CLAIM_NAMES !! z = Some name)
    by (destruct Hz as [-> | ->]; eexists; reflexivity).
  destruct Hname as [name Hname].
  assert (Hdate : bool_decide (z ∈ DATETIME_CLAIMS) = true)
    by (destruct Hz as [-> | ->]; reflexivity).
  rewrite bool_decide_eq_true_2, Hname, Hdate in Hall
    by (destruct Hz as [-> | ->]; discriminate).
  apply result_bind_inv in Hall as (seconds & Hepoch & _).
  destruct (epoch_datetime_inv v seconds Hepoch) as [-> Hrange].
  exact (Hkind Hrange).
Qed.

Lemma timestamps_of_other_kinds_raise_witness :
  ∃ e, result (print_claims 150 (VDict [(KInt 1, VStr "AT"); (KInt 4, VStr "soon")]))
         = Raise e.
Proof.
  refine (timestamps_of_other_kinds_raise (H := toy_libraries) 150
            [(KInt 1, VStr "AT"); (KInt 4, VStr "soon")] 4 (VStr "soon") _ _ I).
  - apply list_elem_of_In. right. left. reflexivity.
  - left. reflexivity.
Defined.

(** X16: when the payload has an expires-at claim and the flat claims are
    printed to the end, the last line of them is the expiry of the claim
    set, and the claim set counts as expired from the very second of its
    expires-at on ([>=]); without an expires-at claim no such line is
    printed. *)
Theorem claim_set_expiry `{Libraries} (now : Z) (claims : list (key * value)) :
  result (print_claims now (VDict claims)) = Return tt →
  (∀ seconds, dict_get claims (KInt 4) = Some (VInt seconds) →
     printed (print_claims now (VDict claims))
       = printed (for_each claims print_claim tt) ++ [LIsExpired (now >=? seconds)]
     ∧ ((now >=? seconds) = true ↔ seconds <= now))
  ∧ (dict_get claims (KInt 4) = None →
     printed (print_claims now (VDict claims)) = printed (for_each claims print_claim tt)).
Proof.
  rewrite print_claims_dict. intros Hres.
  apply result_bind_inv in Hres as ([] & Hloop & Htail).
  rewrite (bind_return _ _ tt Hloop). cbn [printed]. split.
  - intros seconds Hget. rewrite Hget in Htail |- *.
    change (default VNone (Some (VInt seconds))) with (VInt seconds) in Htail |- *.
    cbv beta iota in Htail |- *.
    apply result_bind_inv in Htail as (expires_at & Hepoch & _).
    cbn [call result] in Hepoch.
    destruct (epoch_datetime_inv _ _ Hepoch) as [[= <-] _].
    rewrite Hepoch, call_return_bind. cbn [print printed].
    split; [reflexivity|]. rewrite Z.geb_le. reflexivity.
  - intros Hget. rewrite Hget.
    change (default VNone None) with VNone. cbv beta iota. cbn [mret py_ret printed].
    rewrite app_nil_r. reflexivity.
Qed.

Lemma claim_set_expiry_witness :
  printed (print_claims 1000 (VDict [(KInt 1, VStr "AT"); (KInt 4, VInt 1000)]))
    = printed (for_each [(KInt 1, VStr "AT"); (KInt 4, VInt 1000)] print_claim tt)
        ++ [LIsExpired (1000 >=? 1000)]
  ∧ ((1000 >=? 1000) = true ↔ 1000 <= 1000).
Proof.
  exact (proj1 (claim_set_expiry (H := toy_libraries) 1000
                  [(KInt 1, VStr "AT"); (KInt 4, VInt 1000)] eq_refl) 1000 eq_refl).
Defined.

(** ** Curve names *)

Lemma lower_char_cases (c : ascii) :
  (65 ≤ nat_of_ascii c ≤ 90 ∧ nat_of_ascii (lower_char c) = nat_of_ascii c + 32)%nat
  ∨ (¬ (65 ≤ nat_of_ascii c ≤ 90)%nat ∧ lower_char c = c).
Proof.
  unfold lower_char.
  destruct (Nat.leb_spec 65 (nat_of_ascii c)); cbn [andb]; [|right; split; [lia|reflexivity]].
  destruct (Nat.leb_spec (nat_of_ascii c) 90); [|right; split; [lia|reflexivity]].
  left. split; [lia|]. apply nat_ascii_embedding. lia.
Qed.

Lemma strip_ignored_keeps (c : ascii) (rest : string) :
  nat_of_ascii c ≠ 45%nat → nat_of_ascii c ≠ 95%nat → nat_of_ascii c ≠ 32%nat →
  strip_ignored (String c rest) = String c (strip_ignored rest).
Proof.
  intros H45 H95 H32. cbn [strip_ignored]. rewrite bool_decide_eq_false_2; [reflexivity|].
  intros [-> | [-> | ->]]; [apply H45|apply H95|apply H32]; reflexivity.
Qed.

Lemma normalised_twice (name : string) :
  lower (strip_ignored (lower (strip_ignored name))) = lower (strip_ignored name).
Proof.
  induction name as [|c name IH]; [reflexivity|].
  cbn [strip_ignored]. case_bool_decide as Hc; [exact IH|].
  cbn [lower].
  assert (Hcode : nat_of_ascii c ≠ 45%nat ∧ nat_of_ascii c ≠ 95%nat ∧ nat_of_ascii c ≠ 32%nat).
  { repeat split; intros Hn; apply Hc; apply (f_equal ascii_of_nat) in Hn;
      rewrite ascii_nat_embedding in Hn; subst c; auto. }
  destruct (lower_char_cases c) as [[Hup Hlow]|[Hnot Hsame]].
  - rewrite strip_ignored_keeps by lia. cbn [lower]. rewrite IH. f_equal.
    destruct (lower_char_cases (lower_char c)) as [[Hup' _]|[_ Hsame']]; [lia|exact Hsame'].
  - rewrite Hsame. rewrite strip_ignored_keeps by lia. cbn [lower]. rewrite IH, Hsame.
    reflexivity.
Qed.

(** X17: the normalisation of curve names is idempotent, and every name
    under which the table [CURVES] holds a curve is in normal form: each
    entry of the table, static or scanned, can be reached by the lookup of
    line 258, and two names that normalise alike find the same curve. *)
Theorem curve_table_keys_are_normal `{Libraries} :
  (∀ name, lower (strip_ignored (lower (strip_ignored name))) = lower (strip_ignored name))
  ∧ (∀ n, is_Some (CURVES !! n) → lower (strip_ignored n) = n)
  ∧ (∀ name name', lower (strip_ignored name) = lower (strip_ignored name') →
       CURVES !! lower (strip_ignored name) = CURVES !! lower (strip_ignored name')).
Proof.
  split; [exact normalised_twice|]. split.
  - intros n Hn. apply CURVES_is_Some in Hn as [Hstatic|(name & curve & _ & _ & _ & <-)].
    + rewrite !elem_of_cons, elem_of_nil in Hstatic.
      destruct Hstatic as [-> | [-> | [-> | [-> | []]]]]; reflexivity.
    + apply normalised_twice.
  - intros name name' ->. reflexivity.
Qed.

Lemma curve_table_keys_are_normal_witness :
  lower (strip_ignored "secp256k1") = "secp256k1".
Proof.
  refine (proj1 (proj2 (curve_table_keys_are_normal (H := toy_libraries))) "secp256k1" _).
  eexists. reflexivity.
Defined.

(** ** The sources named on the command line *)

Lemma split_comma_not_nil (s : string) : split_comma s ≠ [].
Proof.
  destruct s as [|c s]; [discriminate|]. cbn [split_comma].
  case_bool_decide; [discriminate|]. destruct (split_comma s); discriminate.
Qed.

Lemma split_comma_plain (name : string) :
  ","%char ∉ list_ascii_of_string name → split_comma name = [name].
Proof.
  induction name as [|c name IH]; intros Hplain; [reflexivity|].
  cbn [list_ascii_of_string] in Hplain. apply not_elem_of_cons in Hplain as [Hc Hname].
  cbn [split_comma]. rewrite bool_decide_eq_false_2 by congruence.
  rewrite (IH Hname). reflexivity.
Qed.

Lemma split_comma_app (name rest : string) :
  ","%char ∉ list_ascii_of_string name →
  split_comma (String.append name (String "," rest)) = name :: split_comma rest.
Proof.
  induction name as [|c name IH]; intros Hplain.
  - change (String.append "" (String "," rest)) with (String "," rest).
    cbn [split_comma]. rewrite bool_decide_eq_true_2 by reflexivity. reflexivity.
  - cbn [list_ascii_of_string] in Hplain. apply not_elem_of_cons in Hplain as [Hc Hname].
    change (String.append (String c name) (String "," rest))
      with (String c (String.append name (String "," rest))).
    cbn [split_comma]. rewrite bool_decide_eq_false_2 by congruence.
    rewrite (IH Hname). reflexivity.
Qed.

Lemma split_comma_join (names : list string) :
  names ≠ [] →
  Forall (λ name, ","%char ∉ list_ascii_of_string name) names →
  split_comma (join_comma names) = names.
Proof.
  intros Hne Hplain. induction Hplain as [|name names Hname Hnames IH]; [contradiction|].
  destruct names as [|name' names].
  - apply split_comma_plain. exact Hname.
  - change (join_comma (name :: name' :: names))
      with (String.append name (String "," (join_comma (name' :: names)))).
    rewrite (split_comma_app name _ Hname), IH by discriminate. reflexivity.
Qed.

Lemma upper_char_twice (c : ascii) : upper_char (upper_char c) = upper_char c.
Proof.
  assert (Hcases : (97 ≤ nat_of_ascii c ≤ 122)%nat
                   ∧ upper_char c = ascii_of_nat (nat_of_ascii c - 32)
                   ∨ upper_char c = c).
  { unfold upper_char.
    destruct (Nat.leb_spec 97 (nat_of_ascii c)); cbn [andb]; [|right; reflexivity].
    destruct (Nat.leb_spec (nat_of_ascii c) 122); [|right; reflexivity].
    left. split; [lia|reflexivity]. }
  destruct Hcases as [[Hc ->]|Hsame]; [|rewrite !Hsame; reflexivity].
  unfold upper_char. rewrite nat_ascii_embedding by lia.
  destruct (Nat.leb_spec 97 (nat_of_ascii c - 32)); [lia|reflexivity].
Qed.

Lemma upper_twice (s : string) : upper (upper s) = upper s.
Proof.
  induction s as [|c s IH]; [reflexivity|]. cbn [upper].
  rewrite upper_char_twice, IH. reflexivity.
Qed.

(** X18: the list given to [--certs-from] is cut at its commas, and each
    name is stripped of surrounding blanks and put in upper case before it
    is handed to [download_ehc_certs]: ASCII names free of commas joined
    by commas come back one by one, in their order, so that [de, at] loads
    the same sources as [DE,AT]; a name already in upper case stays as it
    is. *)
Theorem sources_are_normalised (names : list string) :
  names ≠ [] →
  Forall (λ name, Forall (λ c, (nat_of_ascii c < 128)%nat) (list_ascii_of_string name))
    names →
  Forall (λ name, ","%char ∉ list_ascii_of_string name) names →
  sources_of (join_comma names) = (λ country, upper (strip country)) <$> names
  ∧ Forall (λ source, upper source = source) (sources_of (join_comma names)).
Proof.
  intros Hne _ Hplain. unfold sources_of. rewrite (split_comma_join names Hne Hplain).
  split; [reflexivity|].
  apply Forall_fmap, Forall_forall. intros name _. apply upper_twice.
Qed.

Lemma sources_are_normalised_witness :
  sources_of (join_comma ["de"; " at "]) = ["DE"; "AT"]
  ∧ sources_of (join_comma ["de"; " at "]) = sources_of (join_comma ["DE"; "AT"]).
Proof.
  destruct (sources_are_normalised ["de"; " at "]) as [Hlow _].
  - discriminate.
  - repeat (apply Forall_cons; split;
            [apply (bool_decide_unpack _); vm_compute; exact I|]).
    apply Forall_nil_2.
  - repeat (apply Forall_cons; split;
            [apply (bool_decide_unpack _); vm_compute; exact I|]).
    apply Forall_nil_2.
  - split; [exact Hlow|]. reflexivity.
Defined.

(** ** The trust store of a run *)

(** X19: whichever way [main] obtains its trust store, from the file
    given by [--certs-file] or from the services named by [--certs-from],
    the store it goes on with files every certificate under the first
    eight bytes of its SHA-256 fingerprint; under [--no-verify], and only
    then, there is no store, and nothing is read or fetched. *)
Theorem main_store_key_ids `{Libraries} (read_file : string → outcome bytes)
    (args : Args) :
  (∀ store, result (main_certs read_file args) = Return store →
     match store with
     | None => no_verify args = true
     | Some certs =>
         no_verify args = false
         ∧ ∀ key_id cert, certs !! key_id = Some cert →
             key_id = take 8 (SHA256 (der cert))
     end)
  ∧ (no_verify args = true → main_certs read_file args = mret None).
Proof.
  split.
  - intros store Hres. unfold main_certs in Hres.
    destruct (no_verify args); cbn [negb] in Hres.
    { injection Hres as <-. reflexivity. }
    apply result_bind_inv in Hres as (certs & Hcerts & Hres). injection Hres as <-.
    split; [reflexivity|].
    destruct (match certs_file args with Some _ => _ | None => _ end).
    + unfold load_ehc_certs in Hcerts.
      apply result_bind_inv in Hcerts as (certs_cbor & _ & Hload).
      exact (load_ehc_certs_cbor_key_ids certs_cbor certs Hload).
    + exact (for_each_invariant key_ids_match _ _ download_ehc_certs_source_keeps
               ∅ certs key_ids_match_empty Hcerts).
  - intros Hno. unfold main_certs. rewrite Hno. reflexivity.
Qed.

Lemma main_store_key_ids_witness :
  b "secp256r" = take 8 (SHA256 (der (toy_certificate (b "secp256r1")))).
Proof.
  pose proof (proj1 (main_store_key_ids (H := toy_libraries) (λ _, Return (b "secp256r1"))
                {| certs_file := Some "trust_list.cbor"; certs_from := "DE,AT";
                   no_verify := false; list_certs := false; image := false;
                   ehc_code := [] |})
                (Some {[ b "secp256r" := toy_certificate (b "secp256r1") ]}) eq_refl)
    as [_ Hkeys].
  apply (Hkeys (b "secp256r") (toy_certificate (b "secp256r1"))). reflexivity.
Defined.

(** ** The listing *)

Lemma bytes_compare_antisym (a c : bytes) :
  bytes_compare c a = CompOpp (bytes_compare a c).
Proof.
  revert c. induction a as [|x a IH]; intros [|y c]; try reflexivity.
  cbn [bytes_compare]. rewrite (N.compare_antisym (Byte.to_N x) (Byte.to_N y)).
  destruct (N.compare (Byte.to_N x) (Byte.to_N y)); cbn [CompOpp]; [apply IH|reflexivity..].
Qed.

Lemma listing_compare_antisym (i j : bytes * Certificate) :
  listing_compare j i = CompOpp (listing_compare i j).
Proof.
  unfold listing_compare.
  rewrite (String.compare_antisym (issuer i.2) (issuer j.2)).
  destruct (String.compare (issuer j.2) (issuer i.2)); cbn [CompOpp]; [|reflexivity..].
  rewrite (String.compare_antisym (subject i.2) (subject j.2)).
  destruct (String.compare (subject j.2) (subject i.2)); cbn [CompOpp]; [|reflexivity..].
  rewrite (bytes_compare_antisym j.1 i.1).
  destruct (bytes_compare j.1 i.1); reflexivity.
Qed.

Lemma listing_insert_perm (item : bytes * Certificate) (sorted : list (bytes * Certificate)) :
  listing_insert item sorted ≡ₚ item :: sorted.
Proof.
  induction sorted as [|first rest IH]; [reflexivity|]. cbn [listing_insert].
  destruct (listing_compare item first); [|reflexivity|].
  - rewrite IH. apply Permutation_swap.
  - rewrite IH. apply Permutation_swap.
Qed.

Lemma listing_insert_sorted (item : bytes * Certificate)
    (sorted : list (bytes * Certificate)) :
  Sorted listing_le sorted → Sorted listing_le (listing_insert item sorted).
Proof.
  induction sorted as [|first rest IH]; intros Hsorted.
  - repeat constructor.
  - apply Sorted_inv in Hsorted as [Hrest Hhead]. cbn [listing_insert].
    destruct (listing_compare item first) eqn:Hcmp.
    + apply Sorted_cons; [exact (IH Hrest)|].
      assert (Hle : listing_le first item).
      { unfold listing_le. rewrite listing_compare_antisym, Hcmp. discriminate. }
      destruct rest as [|second rest]; cbn [listing_insert]; [repeat constructor; exact Hle|].
      destruct (listing_compare item second); constructor;
        solve [exact Hle | apply HdRel_inv in Hhead; exact Hhead].
    + apply Sorted_cons; [apply Sorted_cons; assumption|].
      constructor. unfold listing_le. rewrite Hcmp. discriminate.
    + apply Sorted_cons; [exact (IH Hrest)|].
      assert (Hle : listing_le first item).
      { unfold listing_le. rewrite listing_compare_antisym, Hcmp. discriminate. }
      destruct rest as [|second rest]; cbn [listing_insert]; [repeat constructor; exact Hle|].
      destruct (listing_compare item second); constructor;
        solve [exact Hle | apply HdRel_inv in Hhead; exact Hhead].
Qed.

Lemma listing_sort_spec (items done : list (bytes * Certificate)) :
  Sorted listing_le done →
  Sorted listing_le (foldl (λ sorted item, listing_insert item sorted) done items)
  ∧ foldl (λ sorted item, listing_insert item sorted) done items ≡ₚ done ++ items.
Proof.
  revert done. induction items as [|item items IH]; intros done Hdone.
  - cbn [foldl]. rewrite app_nil_r. split; [exact Hdone|reflexivity].
  - cbn [foldl].
    destruct (IH (listing_insert item done) (listing_insert_sorted item done Hdone))
      as [Hsorted Hperm].
    split; [exact Hsorted|]. rewrite Hperm, listing_insert_perm.
    rewrite <- Permutation_middle. reflexivity.
Qed.

(** X20: the listing of [--list-certs] is ordered by issuer, then by
    subject, then by key id (each item is at most its successor in this
    order), and it is a rearrangement of the store: every certificate of
    the store is listed, under its key id, exactly once, and nothing else
    is. *)
Theorem listing_is_sorted (certs : gmap bytes Certificate) :
  Sorted listing_le (listing certs)
  ∧ listing certs ≡ₚ map_to_list certs
  ∧ (∀ key_id cert, (key_id, cert) ∈ listing certs ↔ certs !! key_id = Some cert)
  ∧ NoDup (listing certs).*1
  ∧ length (listing certs) = size certs.
Proof.
  destruct (listing_sort_spec (map_to_list certs) [] (Sorted_nil _)) as [Hsorted Hperm].
  cbn [app] in Hperm. fold (listing_sort (map_to_list certs)) in Hsorted, Hperm.
  fold (listing certs) in Hsorted, Hperm.
  split; [exact Hsorted|]. split; [exact Hperm|]. split; [|split].
  - intros key_id cert. rewrite Hperm. apply elem_of_map_to_list.
  - rewrite Hperm. apply NoDup_fst_map_to_list.
  - rewrite Hperm. apply length_map_to_list.
Qed.

(** ** The verdict and the turn *)

(** X21: [main] does not look at what [verify_ehc] returns: when
    verification returns, be it [True] or [False], the turn goes on to the
    health-claims document and ends as the output of that document ends;
    an input whose signature check fails is processed like one whose
    check succeeds, apart from the lines [verify_ehc] printed. *)
Theorem verdict_is_not_used `{Libraries} (now : Z) (certs : gmap bytes Certificate)
    (ehc_code : string) (ehc_msg : CoseMessage) (ehc_payload : value) (valid : bool) :
  result (decode_ehc ehc_code) = Return ehc_msg →
  cbor2_loads (payload ehc_msg) = Return ehc_payload →
  result (print_claims now ehc_payload) = Return tt →
  result (verify_ehc now ehc_msg certs) = Return valid →
  main_body now (Some certs) tt ehc_code
    = Py (printed (print_claims now ehc_payload)
            ++ printed (verify_ehc now ehc_msg certs)
            ++ printed (print_health_claims ehc_payload))
         (result (print_health_claims ehc_payload)).
Proof.
  intros Hdecode Hloads Hclaims Hverify.
  rewrite (main_body_decoded now (Some certs) ehc_code ehc_msg ehc_payload Hdecode Hloads).
  rewrite (bind_return _ _ tt Hclaims).
  rewrite (bind_return (verify_ehc now ehc_msg certs) _ valid Hverify).
  cbn [mret py_ret printed result]. rewrite app_nil_r.
  change (Py (printed (verify_ehc now ehc_msg certs)) (Return tt)
            ≫= (λ _, print_health_claims ehc_payload))
    with (let rest := print_health_claims ehc_payload in
          Py (printed (verify_ehc now ehc_msg certs) ++ printed rest) (result rest)).
  reflexivity.
Qed.

Lemma verdict_is_not_used_witness :
  result (verify_ehc (H := toy_libraries_forged) 150 msg_nist toy_store) = Return false
  ∧ main_body (H := toy_libraries_forged) 150 (Some toy_store) tt "HC1:LQEVPCSF6X*6*.C VD"
    = Py (printed (print_claims 150 (toy_claims (b "full")))
            ++ printed (verify_ehc (H := toy_libraries_forged) 150 msg_nist toy_store)
            ++ printed (print_health_claims (H := toy_libraries_forged) (toy_claims (b "full"))))
         (result (print_health_claims (H := toy_libraries_forged) (toy_claims (b "full")))).
Proof.
  split; [vm_compute; reflexivity|].
  refine (verdict_is_not_used (H := toy_libraries_forged) 150 toy_store
            "HC1:LQEVPCSF6X*6*.C VD" msg_nist (toy_claims (b "full")) false _ _ _ _);
    vm_compute; reflexivity.
Defined.
